(** * Guardrails for resume question answering

    A shallow embedding of [app/guardrails.py] (configuration, the
    [AdvancedPIIDetector] class, [apply_guardrails], [AdvancedGuardrails])
    and of the [/query] handler of [app/main.py], with the properties
    of the design document stated over it.

    Conventions of the embedding.
    - A Python [str] is a [string]: each character of the string stands
      for one Python character, of code point below 256, and offsets
      count characters. Texts with characters beyond that range are
      not covered. The two message literals of the handler that hold
      symbols beyond it are written as their UTF-8 bytes; nothing is
      computed on them.
    - A Python [int] is a [Z]; slices follow Python's rules for negative
      and out-of-range bounds.
    - A Python [float] is an exact rational [Q]: sums, products and
      comparisons are the mathematical ones, rounding is not modelled.
      Equality of scores is therefore [Qeq].
    - Lists that the code mutates in place live in a heap and are named by
      their address, so two dictionary entries bound to the same list
      object hold the same address.
    - Presidio, the sentence-transformer, the FAISS index, the regular
      expression engine and the generative model are libraries outside
      the repository: they are parameters of the functions calling them,
      with [None] standing for a raised exception. *)

From Stdlib Require Import ZArith QArith Qminmax Lqa String Ascii List Lia.
From Stdlib Require Import Permutation Sorted.
From stdpp Require Import base option list gmap strings.

Local Open Scope string_scope.
Local Open Scope Z_scope.

(* ================================================================== *)
(** ** Python primitives used by the code *)

Module Py.

(** Bound of a slice: a negative bound counts from the end, and the
    result is clamped to [0, len]. *)
Definition slice_bound (len i : Z) : nat :=
  Z.to_nat (if i <? 0 then Z.max 0 (len + i) else Z.min i len).

Definition len (s : string) : Z := Z.of_nat (String.length s).

(** [s[:i]] *)
Definition slice_to (s : string) (i : Z) : string :=
  substring 0 (slice_bound (len s) i) s.

(** [s[i:]] *)
Definition slice_from (s : string) (i : Z) : string :=
  let k := slice_bound (len s) i in
  substring k (String.length s - k) s.

(** [s[i:j]] *)
Definition slice (s : string) (i j : Z) : string :=
  let a := slice_bound (len s) i in
  let b := slice_bound (len s) j in
  substring a (b - a) s.

(** [needle in hay] on strings. *)
Fixpoint contains (needle hay : string) : bool :=
  String.prefix needle hay ||
  match hay with
  | EmptyString => false
  | String _ rest => contains needle rest
  end.

(** [s.replace(old, new)] for a non-empty [old]: the occurrences are
    taken from left to right and do not overlap; [skip] counts the
    characters of the occurrence just replaced. *)
Fixpoint replace_from (old new : string) (skip : nat) (s : string) : string :=
  match s with
  | EmptyString => EmptyString
  | String c rest =>
      match skip with
      | S k => replace_from old new k rest
      | O =>
          if String.prefix old s
          then new ++ replace_from old new (String.length old - 1) rest
          else String c (replace_from old new 0 rest)
      end
  end.

(** With an empty [old] Python puts [new] before every character and
    at the end. *)
Fixpoint intersperse (new s : string) : string :=
  match s with
  | EmptyString => new
  | String c rest => new ++ String c (intersperse new rest)
  end.

Definition replace (s old new : string) : string :=
  match old with
  | EmptyString => intersperse new s
  | String _ _ => replace_from old new 0 s
  end.

Definition upper_char (c : ascii) : ascii :=
  let n := nat_of_ascii c in
  if (97 <=? n)%nat && (n <=? 122)%nat then ascii_of_nat (n - 32) else c.

(** [s.upper()] *)
Fixpoint upper (s : string) : string :=
  match s with
  | EmptyString => EmptyString
  | String c rest => String (upper_char c) (upper rest)
  end.

(** [c.isspace()] on the characters below 256: the ASCII controls 9 to
    13 and 28 to 31, the space, NEL (133) and the no-break space (160). *)
Definition isspace (c : ascii) : bool :=
  let n := nat_of_ascii c in
  ((9 <=? n)%nat && (n <=? 13)%nat) || ((28 <=? n)%nat && (n <=? 32)%nat)
  || (n =? 133)%nat || (n =? 160)%nat.

Fixpoint lstrip (s : string) : string :=
  match s with
  | EmptyString => EmptyString
  | String c rest => if isspace c then lstrip rest else s
  end.

Fixpoint rstrip (s : string) : string :=
  match s with
  | EmptyString => EmptyString
  | String c rest =>
      match rstrip rest with
      | EmptyString => if isspace c then EmptyString else String c EmptyString
      | r => String c r
      end
  end.

(** [s.strip()] *)
Definition strip (s : string) : string := rstrip (lstrip s).

(** Truth value of a string: empty is false. *)
Definition truthy (s : string) : bool :=
  match s with EmptyString => false | String _ _ => true end.

(** [l[i]] on a list: a negative index counts from the end, an index
    out of range raises [IndexError] ([None]). *)
Definition index {A} (l : list A) (i : Z) : option A :=
  let n := Z.of_nat (List.length l) in
  if (0 <=? i) && (i <? n) then nth_error l (Z.to_nat i)
  else if (- n <=? i) && (i <? 0) then nth_error l (Z.to_nat (n + i))
  else None.

(** [min(a, b)] on two numbers: [a] unless [b < a]. *)
Definition min (a b : Q) : Q :=
  if Qle_bool a b then a else b.

(** [a > b] on numbers. *)
Definition gt (a b : Q) : bool := negb (Qle_bool a b).

End Py.

(* ================================================================== *)
(** ** Configuration ([PII_DETECTION_CONFIG], [DETECTION_MODES]) *)

Record Thresholds := {
  semantic_similarity : Q;
  risk_threshold_cfg : Q;        (* key 'risk_score' *)
  presidio_confidence : Q
}.

Record Config := {
  thresholds : Thresholds;
  entities : list string;
  sensitive_topics : list string;
  high_risk_entities : list string;
  redaction_patterns : gmap string string
}.

Definition PII_DETECTION_CONFIG : Config := {|
  thresholds := {|
    semantic_similarity := 0.75;
    risk_threshold_cfg := 0.5;
    presidio_confidence := 0.7
  |};
  entities := [
    "CREDIT_CARD"; "EMAIL_ADDRESS"; "PHONE_NUMBER"; "US_SSN";
    "BANK_ACCOUNT"; "IBAN_CODE"; "IFSC_CODE"; "PAN_NUMBER";
    "AADHAAR_NUMBER"; "LOCATION"; "URL"
  ];
  sensitive_topics := [
    "bank account"; "credit card"; "debit card"; "ifsc code"; "cvv";
    "social security number"; "ssn"; "pan card"; "aadhaar"; "passport";
    "routing number"; "account number"; "pin"; "password"; "otp";
    "salary"; "compensation"; "ctc"; "package"; "banking details";
    "net banking"; "upi id"; "paytm"; "google pay"; "phonepe";
    "linkedin"; "github";
    "cgpa"; "marks"; "gpa"; "grade"; "percentage"
  ];
  high_risk_entities := [
    "CREDIT_CARD"; "US_SSN"; "BANK_ACCOUNT"; "AADHAAR_NUMBER";
    "PAN_NUMBER"; "IFSC_CODE"; "EMAIL_ADDRESS"; "PHONE_NUMBER"; "URL"
  ];
  redaction_patterns := list_to_map [
    ("EMAIL_ADDRESS", "[EMAIL_REDACTED]");
    ("PHONE_NUMBER", "[PHONE_REDACTED]");
    ("US_SSN", "[SSN_REDACTED]");
    ("CREDIT_CARD", "[CARD_REDACTED]");
    ("BANK_ACCOUNT", "[ACCOUNT_REDACTED]");
    ("IFSC_CODE", "[IFSC_REDACTED]");
    ("PAN_NUMBER", "[PAN_REDACTED]");
    ("AADHAAR_NUMBER", "[AADHAAR_REDACTED]");
    ("URL", "[LINK_REDACTED]");
    ("CGPA", "[CGPA_REDACTED]");
    ("MARKS", "[MARKS_REDACTED]");
    ("GPA", "[GPA_REDACTED]");
    ("PERCENTAGE", "[PERCENTAGE_REDACTED]")
  ]
|}.

Record DetectionMode := {
  semantic_threshold : Q;
  risk_threshold : Q;
  block_on_pii : bool
}.

Definition DETECTION_MODES : gmap string DetectionMode := list_to_map [
  ("strict",   {| semantic_threshold := 0.6;  risk_threshold := 0.3; block_on_pii := false |});
  ("moderate", {| semantic_threshold := 0.75; risk_threshold := 0.5; block_on_pii := false |});
  ("lenient",  {| semantic_threshold := 0.85; risk_threshold := 0.7; block_on_pii := false |})
].

Definition DEFAULT_DETECTION_MODE : string := "moderate".

(* ================================================================== *)
(** ** Data produced by the detector *)

(** What Presidio's [AnalyzerEngine.analyze] returns for one finding. *)
Record RecognizerResult := {
  r_entity_type : string;
  r_start : Z;
  r_end : Z;
  r_score : Q
}.

(** The dictionary built for each finding by [detect_pii_with_presidio]. *)
Record Detection := {
  entity_type : string;
  start : Z;
  end_ : Z;
  score : Q;
  text : string
}.

(** The dictionary returned by [detect_semantic_pii]; the key
    ['matched_topic'] is present only on a detection. *)
Record Semantic := {
  detected : bool;
  similarity : Q;
  matched_topic : option string
}.

(** Addresses of list objects and the heap holding them. *)
Abbreviation loc := nat (only parsing).
Abbreviation heap := (list (list Detection)) (only parsing).

Definition alloc (h : heap) (l : list Detection) : loc * heap :=
  (List.length h, (h ++ [l])%list).

Definition deref (h : heap) (a : loc) : list Detection :=
  default [] (h !! a).

Definition store (h : heap) (a : loc) (l : list Detection) : heap :=
  <[a := l]> h.

(** The dictionary returned by [analyze_text]. ['presidio_detections']
    and ['all_detections'] are bound to one list object. *)
Record Analysis := {
  contains_pii : bool;
  presidio_detections : loc;
  semantic_detection : Semantic;
  all_detections : loc;
  risk_score : Q
}.

(* ================================================================== *)
(** ** The detector ([AdvancedPIIDetector]) *)

(** Presidio's [AnalyzerEngine.analyze(text, entities, language)];
    [None] when the call raises. *)
Definition AnalyzerEngine :=
  string -> list string -> string -> option (list RecognizerResult).

(** The state of a detector object. [analyzer] is [None] when Presidio
    could not be started; [semantic_model] is the [encode] method of the
    sentence-transformer, [None] when it raises; [sensitive_embeddings]
    are the embeddings of the configured topics, computed once by the
    constructor. *)
Record AdvancedPIIDetector {Embedding : Type} := {
  config : Config;
  analyzer : option AnalyzerEngine;
  semantic_model : string -> option Embedding;
  sensitive_embeddings : list Embedding
}.
Arguments AdvancedPIIDetector : clear implicits.

(** Stable sort by descending [start], as
    [detections.sort(key=lambda x: x['start'], reverse=True)]: elements
    with the same key keep their relative order. *)
Fixpoint insert_desc (d : Detection) (l : list Detection) : list Detection :=
  match l with
  | [] => [d]
  | e :: l' => if start d <? start e then e :: insert_desc d l' else d :: e :: l'
  end.

Definition sort_desc (l : list Detection) : list Detection :=
  foldr insert_desc [] l.

(** Running maximum of a non-empty tensor and the index of its first
    maximal entry ([sims.max()], [sims.argmax()]). *)
Fixpoint max_from (best : Q) (l : list Q) : Q :=
  match l with
  | [] => best
  | x :: l' => max_from (if Py.gt x best then x else best) l'
  end.

Fixpoint argmax_from (i best_i : nat) (best : Q) (l : list Q) : nat :=
  match l with
  | [] => best_i
  | x :: l' =>
      if Py.gt x best then argmax_from (S i) i x l'
      else argmax_from (S i) best_i best l'
  end.

Section Detector.

Context {Embedding : Type}.

(** [sentence_transformers.util.cos_sim] on two embeddings. *)
Variable cos_sim : Embedding -> Embedding -> Q.

Variable self : AdvancedPIIDetector Embedding.

(** [__init__]: [None] when encoding the topics raises. *)
Definition new (cfg : Config) (presidio : option AnalyzerEngine)
    (model : string -> option Embedding) : option (AdvancedPIIDetector Embedding) :=
  embs ← mapM model (sensitive_topics cfg);
  Some {| config := cfg; analyzer := presidio;
          semantic_model := model; sensitive_embeddings := embs |}.

Definition detect_pii_with_presidio (text : string) : list Detection :=
  match analyzer self with
  | None => []
  | Some analyze =>
      match analyze text (entities (config self)) "en" with
      | Some results =>
          map (fun r => {| entity_type := r_entity_type r;
                           start := r_start r;
                           end_ := r_end r;
                           score := r_score r;
                           text := Py.slice text (r_start r) (r_end r) |})
              results
      | None => []
      end
  end.

(** The result of the [except] branch. *)
Definition semantic_failed : Semantic :=
  {| detected := false; similarity := 0.0; matched_topic := None |}.

Definition detect_semantic_pii (text : string) : Semantic :=
  match semantic_model self text with
  | None => semantic_failed
  | Some text_embedding =>
      match map (cos_sim text_embedding) (sensitive_embeddings self) with
      | [] => semantic_failed            (* max of an empty tensor raises *)
      | s0 :: sims =>
          let max_sim := max_from s0 sims in
          if Py.gt max_sim (semantic_similarity (thresholds (config self))) then
            let idx := argmax_from 1 0 s0 sims in
            match nth_error (sensitive_topics (config self)) idx with
            | Some topic =>
                {| detected := true; similarity := max_sim;
                   matched_topic := Some topic |}
            | None => semantic_failed    (* IndexError *)
            end
          else {| detected := false; similarity := max_sim;
                  matched_topic := None |}
      end
  end.

Definition is_high_risk (d : Detection) : bool :=
  bool_decide (entity_type d ∈ high_risk_entities (config self)).

Definition _calculate_risk (detections : list Detection) (semantic : Semantic) : Q :=
  let score := (inject_Z (Z.of_nat (List.length detections)) * 0.3)%Q in
  let score :=
    if detected semantic then (score + similarity semantic * 0.5)%Q else score in
  let score :=
    fold_left (fun score d => if is_high_risk d then (score + 0.4)%Q else score)
              detections score in
  Py.min score 1.0.

Definition analyze_text (text : string) (h : heap) : Analysis * heap :=
  let presidio := detect_pii_with_presidio text in
  let '(p, h) := alloc h presidio in
  let semantic := detect_semantic_pii text in
  let detections := presidio in
  ({| contains_pii :=
        match detections with [] => detected semantic | _ :: _ => true end;
      presidio_detections := p;
      semantic_detection := semantic;
      all_detections := p;
      risk_score := _calculate_risk detections semantic |}, h).

(** The replacement token of a finding. *)
Definition repl_of (d : Detection) : string :=
  default ("[" ++ entity_type d ++ "_REDACTED]")
          (redaction_patterns (config self) !! entity_type d).

(** One step of the loop over the findings. *)
Definition redact_span (redacted : string) (d : Detection) : string :=
  Py.slice_to redacted (start d) ++ repl_of d ++ Py.slice_from redacted (end_ d).

(** The pass over the matched topic. *)
Definition redact_topic (semantic : Semantic) (redacted : string) : string :=
  if detected semantic then
    let topic := Py.upper (default "" (matched_topic semantic)) in
    if Py.contains "CGPA" topic then Py.replace redacted "CGPA" "[CGPA_REDACTED]"
    else if Py.contains "MARKS" topic then Py.replace redacted "marks" "[MARKS_REDACTED]"
    else if Py.contains "GPA" topic then Py.replace redacted "GPA" "[GPA_REDACTED]"
    else if Py.contains "PERCENTAGE" topic then Py.replace redacted "%" "[PERCENTAGE_REDACTED]"
    else redacted
  else redacted.

Definition redact_pii (text : string) (analysis : Analysis) (h : heap) : string * heap :=
  let redacted := text in
  let a := presidio_detections analysis in
  let h := store h a (sort_desc (deref h a)) in      (* in-place sort *)
  let detections := deref h a in
  let redacted := fold_left redact_span detections redacted in
  (redact_topic (semantic_detection analysis) redacted, h).

End Detector.

(* ================================================================== *)
(** ** The guardrails API and the [/query] handler *)

(** The ['metadata'] entry and the dictionary returned by
    [AdvancedGuardrails.analyze_content]. *)
Record Metadata := {
  md_presidio_detections : loc;
  md_semantic_detection : Semantic;
  pii_types : list string
}.

Record ContentAnalysis := {
  safe : bool;
  metadata : Metadata;
  content_risk_score : Q
}.

(** What [model.generate_content(prompt)] gives: a response whose
    [text] may be missing, or an exception with its message. *)
Inductive Generation :=
  | Generated (response_text : option string)
  | GenerationError (message : string).

(** JSON bodies sent by the handler. *)
Inductive Payload :=
  | ErrorBody (error : string)
  | AnswerBody (answer : string)
  | BlockedBody (answer : string) (blocked_terms : list string) (risk : Q).

(** A response with its status code, or an exception that the handler
    does not catch. *)
Inductive Response :=
  | Json (body : Payload) (status : Z)
  | Unhandled.

Definition academic_patterns : list string := [
  "\bCGPA[:\s]*\d+(\.\d+)?\b";
  "\bGPA[:\s]*\d+(\.\d+)?\b";
  "\b\d+(\.\d+)?\s*/\s*10\b";
  "\b\d+(\.\d+)?\s*/\s*100\b";
  "\bmarks[:\s]*\d+%?\b";
  "\bgrade[:\s]*[A-F][+-]?\b"
].

Section Guardrails.

Context {Embedding : Type}.
Variable cos_sim : Embedding -> Embedding -> Q.
Variable presidio : option AnalyzerEngine.
Variable model : string -> option Embedding.
Variable topic_embeddings : list Embedding.

(** [detector = AdvancedPIIDetector(PII_DETECTION_CONFIG)], once the
    constructor has returned. *)
Definition detector : AdvancedPIIDetector Embedding :=
  {| config := PII_DETECTION_CONFIG; analyzer := presidio;
     semantic_model := model; sensitive_embeddings := topic_embeddings |}.

Definition apply_guardrails (text : string) (mode : string) (h : heap)
    : string * heap :=
  let '(analysis, h) := analyze_text cos_sim detector text h in
  if contains_pii analysis then redact_pii detector text analysis h
  else (text, h).

Definition analyze_content (text : string) (h : heap) : ContentAnalysis * heap :=
  let '(analysis, h) := analyze_text cos_sim detector text h in
  ({| safe := true;
      metadata :=
        {| md_presidio_detections := presidio_detections analysis;
           md_semantic_detection := semantic_detection analysis;
           pii_types :=
             map entity_type (deref h (presidio_detections analysis)) |};
      content_risk_score := risk_score analysis |}, h).

(** *** [app/main.py] *)

(** [re.sub(pattern, repl, string, flags=re.IGNORECASE)] *)
Variable re_sub : string -> string -> string -> string.
(** The sanitized texts unpickled from the store; [None] when the
    index file or the text file does not exist. *)
Variable text_store : option (list string).
(** The [indices] array of [index.search(model.encode([q]), k=1)]. *)
Variable index_search : string -> list (list Z).
(** [genai.GenerativeModel("gemini-2.0-flash").generate_content] *)
Variable generate_content : string -> Generation.

Definition block_academic_scores (text : string) : string :=
  fold_left (fun redacted pat => re_sub pat "[REDACTED_SCORE]" redacted)
            academic_patterns text.

(** [Some None] is Python's [None], the outer [None] an [IndexError]. *)
Definition search_resumes (query : string) (h : heap)
    : option (option string) * heap :=
  match text_store with
  | None => (Some None, h)
  | Some texts =>
      let '(safe_query, h) := apply_guardrails query DEFAULT_DETECTION_MODE h in
      match index_search safe_query with
      | [] => (Some None, h)
      | row :: _ =>
          match row with
          | [] => (None, h)
          | i :: _ =>
              if i =? -1 then (Some None, h)
              else (Some <$> Py.index texts i, h)
          end
      end
  end.

Definition query_resume (data_query : option string) (h : heap)
    : Response * heap :=
  let query := Py.strip (default "" data_query) in
  if negb (Py.truthy query) then
    (Json (ErrorBody "Query is required") 400, h)
  else
  match search_resumes query h with
  | (None, h) => (Unhandled, h)
  | (Some matched, h) =>
  let matched_text := default "" matched in
  if negb (Py.truthy matched_text) then
    (Json (ErrorBody "No relevant resume data found for your query.") 404, h)
  else
  let '(redacted_text, h) := apply_guardrails matched_text DEFAULT_DETECTION_MODE h in
  let redacted_text := block_academic_scores redacted_text in
  let '(analysis, h) := analyze_content redacted_text h in
  if negb (safe analysis) && Py.gt (content_risk_score analysis) 0.8 then
    (Json (BlockedBody
             "[❌ Query blocked: contains high-risk sensitive information]"
             (pii_types (metadata analysis))
             (content_risk_score analysis)) 403, h)
  else
  let '(safe_query, h) := apply_guardrails query DEFAULT_DETECTION_MODE h in
  let prompt :=
    "You are a resume assistant. DO NOT reveal any sensitive personal information such as "
    ++ "bank account numbers, passwords, credit card numbers, CVV codes, social security numbers, phone numbers, emails, or academic scores (CGPA, GPA, marks, grades)."
    ++ String "010" (String "010" "Here is the sanitized resume text:")
    ++ String "010" redacted_text
    ++ String "010" (String "010" "Question: ") ++ safe_query
    ++ String "010" "Answer:" in
  match generate_content prompt with
  | GenerationError e =>
      (Json (ErrorBody ("Gemini API error: " ++ e)) 500, h)
  | Generated t =>
      let response_text :=
        match t with
        | Some s => if Py.truthy s then s else "[⚠️ No response from model]"
        | None => "[⚠️ No response from model]"
        end in
      let response_text := block_academic_scores response_text in
      let '(final_analysis, h) := analyze_content response_text h in
      if negb (safe final_analysis)
         && Py.gt (content_risk_score final_analysis) 0.8 then
        (Json (BlockedBody
                 "[❌ Response hidden: sensitive content detected]"
                 (pii_types (metadata final_analysis))
                 (content_risk_score final_analysis)) 403, h)
      else (Json (AnswerBody response_text) 200, h)
  end
  end.

End Guardrails.

(* ================================================================== *)
(** ** Stand-ins for the external libraries

    Small executable instances of the external parameters, on which the
    functions above are run in the examples, witnesses and
    counterexamples below. *)

Module Sample.

(** Embeddings along one coordinate axis: [sign] times the unit vector
    of [axis] (the zero vector when [sign] is 0). *)
Record AxisVec := { sign : Z; axis : nat }.

(** The cosine of two such vectors: the product of the signs on a
    common axis, 0 on different axes or with a zero vector. *)
Definition cos_sim (a b : AxisVec) : Q :=
  if Nat.eqb (axis a) (axis b)
  then inject_Z (Z.sgn (sign a) * Z.sgn (sign b))
  else 0%Q.

Fixpoint first_index (p : string -> bool) (i : nat) (l : list string) : option nat :=
  match l with
  | [] => None
  | t :: l' => if p t then Some i else first_index p (S i) l'
  end.

(** A model that spots topic words: a text goes to the axis of the
    first configured topic it mentions (whatever the case), to the
    zero vector when it mentions none. *)
Definition keyword_model (text : string) : option AxisVec :=
  match first_index (fun t => Py.contains (Py.upper t) (Py.upper text)) 0
                    (sensitive_topics PII_DETECTION_CONFIG) with
  | Some i => Some {| sign := 1; axis := i |}
  | None => Some {| sign := 0; axis := 0 |}
  end.


(** A model whose calls raise. *)
Definition failing_model (text : string) : option AxisVec := None.

(** The embeddings of the topics under a model, as the constructor
    computes them (empty if the model raises). *)
Definition embeddings_of (model : string -> option AxisVec) : list AxisVec :=
  default [] (mapM model (sensitive_topics PII_DETECTION_CONFIG)).

(** An analyzer given by a table from texts to findings; it reports
    the findings of the requested entity types. *)
Definition table_analyzer (table : list (string * list RecognizerResult))
    : AnalyzerEngine :=
  fun text wanted language =>
    Some (filter (fun r => bool_decide (r_entity_type r ∈ wanted))
                 (default [] (snd <$> List.find (fun e => String.eqb (fst e) text) table))).

(** A regular-expression engine seen on texts that no pattern
    matches: the text comes back as it is. *)
Definition re_sub_no_match (pattern repl s : string) : string := s.

Definition email_text : string := "mail a@b.com or x@y.org".

Definition email_findings : list RecognizerResult := [
  {| r_entity_type := "EMAIL_ADDRESS"; r_start := 5; r_end := 12; r_score := 1.0 |};
  {| r_entity_type := "EMAIL_ADDRESS"; r_start := 16; r_end := 23; r_score := 1.0 |}
].

Definition weak_text : string := "ring 12345 now".

Definition weak_findings : list RecognizerResult := [
  {| r_entity_type := "PHONE_NUMBER"; r_start := 5; r_end := 10; r_score := 0.4 |}
].

Definition place_text : string := "lives in Paris".

Definition place_findings : list RecognizerResult := [
  {| r_entity_type := "LOCATION"; r_start := 9; r_end := 14; r_score := 0.85 |}
].

Definition findings_table : list (string * list RecognizerResult) := [
  (email_text, email_findings);
  (weak_text, weak_findings);
  (place_text, place_findings)
].

Definition presidio : option AnalyzerEngine := Some (table_analyzer findings_table).

(** The generative model answering every prompt with one text. *)
Definition answer_with (t : string) (prompt : string) : Generation :=
  Generated (Some t).

(** The detector of the module under the keyword model. *)
Definition keyword_detector : AdvancedPIIDetector AxisVec :=
  detector presidio keyword_model (embeddings_of keyword_model).


Definition sanitize (text : string) : string :=
  fst (apply_guardrails cos_sim presidio keyword_model
         (embeddings_of keyword_model) text DEFAULT_DETECTION_MODE []).

Definition email_detection : Detection :=
  {| entity_type := "EMAIL_ADDRESS"; start := 5; end_ := 12;
     score := 1.0; text := "a@b.com" |}.

Definition cgpa_match : Semantic :=
  {| detected := true; similarity := 0.9; matched_topic := Some "cgpa" |}.

(** A store of one resume, an index whose search always returns its
    first entry, and a generative model that answers with
    [email_text]. *)
Definition resume_texts : list string := ["Resume of Ann, engineer"].

Definition first_hit (query : string) : list (list Z) := [[0]].

Definition query (data_query : option string) : Response :=
  fst (query_resume cos_sim presidio keyword_model (embeddings_of keyword_model)
         re_sub_no_match (Some resume_texts) first_hit (answer_with email_text)
         data_query []).

(** The analysis of a text by the handler's wrapper. *)
Definition analyze (text : string) : ContentAnalysis :=
  fst (analyze_content cos_sim presidio keyword_model
         (embeddings_of keyword_model) text []).

End Sample.

(* ================================================================== *)
(** ** Notions used to state the properties *)

(** [e] may stand after [d] in a list sorted by descending [start]. *)
Definition start_ge (d e : Detection) : Prop := start e <= start d.

(** The number of findings whose type is in the high-risk set. *)
Definition high_risk_count {Embedding} (self : AdvancedPIIDetector Embedding)
    (detections : list Detection) : nat :=
  List.length (List.filter (is_high_risk self) detections).

(** The score as the design document writes it. *)
Definition risk_formula {Embedding} (self : AdvancedPIIDetector Embedding)
    (detections : list Detection) (semantic : Semantic) : Q :=
  Qmin 1.0
    (0.3 * inject_Z (Z.of_nat (List.length detections))
     + (if detected semantic then 0.5 * similarity semantic else 0)
     + 0.4 * inject_Z (Z.of_nat (high_risk_count self detections)))%Q.

(** A semantic match as [detect_semantic_pii] builds it under a
    non-negative threshold: a detection carries a non-negative
    similarity. *)
Definition semantic_wf (semantic : Semantic) : Prop :=
  detected semantic = true -> (0 <= similarity semantic)%Q.

(** The replacement token of an entity type as the design document
    words it: the configured token, or ["[<TYPE>_REDACTED]"] when the
    type has no entry. *)
Definition token_for (patterns : gmap string string) (type : string) : string :=
  match patterns !! type with
  | Some token => token
  | None => "[" ++ type ++ "_REDACTED]"
  end.


(** A topic that the keyword pass acts on: its upper-case form contains
    one of the four education words. *)
Definition is_education_topic (topic : string) : bool :=
  let t := Py.upper topic in
  Py.contains "CGPA" t || Py.contains "MARKS" t
  || Py.contains "GPA" t || Py.contains "PERCENTAGE" t.





(* ================================================================== *)
(** ** More Python string and list primitives *)

Module PyStr.

(** [sep.join(parts)] *)
Fixpoint join (sep : string) (parts : list string) : string :=
  match parts with
  | [] => ""
  | p :: rest =>
      match rest with
      | [] => p
      | _ :: _ => p ++ sep ++ join sep rest
      end
  end.

(** [s.split(sep)] for a separator of one character: the pieces between
    the separators, empty pieces included. *)
Fixpoint split_on (sep : ascii) (s : string) : list string :=
  match s with
  | EmptyString => [EmptyString]
  | String c rest =>
      if Ascii.eqb c sep then EmptyString :: split_on sep rest
      else match split_on sep rest with
           | [] => [String c EmptyString]
           | p :: ps => String c p :: ps
           end
  end.

(** A word put in front of a list of words, unless it is empty. *)
Definition push_word (w : string) (ws : list string) : list string :=
  match w with
  | EmptyString => ws
  | String _ _ => w :: ws
  end.

(** The run of characters before the first whitespace, and the words
    after it. *)
Fixpoint split_ws_from (s : string) : string * list string :=
  match s with
  | EmptyString => (EmptyString, [])
  | String c rest =>
      let '(w, ws) := split_ws_from rest in
      if Py.isspace c then (EmptyString, push_word w ws)
      else (String c w, ws)
  end.

(** [s.split()]: the maximal runs of characters that are not
    whitespace. *)
Definition split_ws (s : string) : list string :=
  let '(w, ws) := split_ws_from s in push_word w ws.

(** [range(0, stop, step)]; a zero step raises [ValueError]. *)
Definition range0 (stop step : Z) : option (list Z) :=
  if step =? 0 then None
  else
    let n :=
      if 0 <? step then (if 0 <? stop then (stop - 1) / step + 1 else 0)
      else (if stop <? 0 then (- stop - 1) / (- step) + 1 else 0) in
    Some (map (fun k => Z.of_nat k * step) (seq 0 (Z.to_nat n))).

Definition lower_char (c : ascii) : ascii :=
  let n := nat_of_ascii c in
  if (65 <=? n)%nat && (n <=? 90)%nat then ascii_of_nat (n + 32) else c.

(** [s.lower()] *)
Fixpoint lower (s : string) : string :=
  match s with
  | EmptyString => EmptyString
  | String c rest => String (lower_char c) (lower rest)
  end.

(** [s.endswith(suffix)] *)
Definition endswith (s suffix : string) : bool :=
  let n := String.length s in
  let m := String.length suffix in
  (m <=? n)%nat && String.eqb (substring (n - m) m s) suffix.

End PyStr.

(* ================================================================== *)
(** ** [app/pdf_utils.py] *)

Module PdfUtils.

(** [[p.strip() for p in text.split('\n') if p.strip()]] *)
Definition stripped_lines (text : string) : list string :=
  map Py.strip
      (List.filter (fun p => Py.truthy (Py.strip p)) (PyStr.split_on "010" text)).

(** The first three statements of [sanitize_text]. *)
Definition normalize (text : string) : string :=
  let t := Py.replace (Py.replace text (String "013" (String "010" ""))
                         (String "010" ""))
                      (String "013" "") (String "010" "") in
  let t := PyStr.join (String "010" (String "010" "")) (stripped_lines t) in
  PyStr.join " " (PyStr.split_ws t).

(** The chunks cut out of a paragraph longer than the limit. *)
Definition long_pieces (p : string) (max_chunk_chars : Z) : option (list string) :=
  indices ← PyStr.range0 (Py.len p) max_chunk_chars;
  Some (map (fun i => Py.strip (Py.slice p i (i + max_chunk_chars))) indices).

(** One turn of the loop over the paragraphs, on the pair of [chunks]
    and [current]; [None] once an exception was raised. *)
Definition segment_step (max_chunk_chars : Z)
    (state : option (list string * string)) (p : string)
    : option (list string * string) :=
  '(chunks, current) ← state;
  if Py.len current + Py.len p + 1 <=? max_chunk_chars then
    Some (chunks, if Py.truthy current then current ++ String "010" p else p)
  else
    let chunks :=
      if Py.truthy current then (chunks ++ [Py.strip current])%list else chunks in
    if max_chunk_chars <? Py.len p then
      pieces ← long_pieces p max_chunk_chars;
      Some ((chunks ++ pieces)%list, EmptyString)
    else Some (chunks, p).

Definition segment_text (text : string) (max_chunk_chars : Z)
    : option (list string) :=
  '(chunks, current) ←
    fold_left (segment_step max_chunk_chars) (stripped_lines text)
              (Some ([], EmptyString));
  Some (if Py.truthy current then (chunks ++ [Py.strip current])%list else chunks).

Section Sanitize.

Context {Embedding : Type}.
Variable cos_sim : Embedding -> Embedding -> Q.
Variable presidio : option AnalyzerEngine.
Variable model : string -> option Embedding.
Variable topic_embeddings : list Embedding.

Definition sanitize_text (text : string) (h : list (list Detection))
    : string * list (list Detection) :=
  apply_guardrails cos_sim presidio model topic_embeddings
    (normalize text) DEFAULT_DETECTION_MODE h.

End Sanitize.

End PdfUtils.

(** A string of whitespace characters only. *)
Fixpoint all_space (s : string) : bool :=
  match s with
  | EmptyString => true
  | String c rest => Py.isspace c && all_space rest
  end.

(** A string without whitespace character. *)
Fixpoint no_space (s : string) : bool :=
  match s with
  | EmptyString => true
  | String c rest => negb (Py.isspace c) && no_space rest
  end.

(** The items of a list, each followed by a line feed. *)
Fixpoint unlines (l : list string) : string :=
  match l with
  | [] => EmptyString
  | p :: rest => p ++ String "010" (unlines rest)
  end.

(** A non-empty string that neither starts nor ends with whitespace. *)
Definition trimmed (s : string) : Prop :=
  s <> EmptyString /\ Py.lstrip s = s /\ Py.rstrip s = s.

(* ================================================================== *)
(** ** Batches of texts, [app/embedder.py] and the index of [app/main.py] *)

(** What is on disk under a file name: nothing, a file that loads to a
    value, or a file that does not load (cut short while being
    written, say). *)
Inductive OnDisk (A : Type) :=
  | Missing
  | Holds (content : A)
  | Damaged.
Arguments Missing {A}.
Arguments Holds {A} content.
Arguments Damaged {A}.

(** The files that [app/main.py] reads and writes: the names in the
    resume folder as [os.listdir] gives them ([None] when the folder
    does not exist), the FAISS index file with its vectors and the
    pickled text store with its texts. *)
Record Files {Vector : Type} := {
  resume_folder : option (list string);
  faiss_index_file : OnDisk (list Vector);
  text_store_file : OnDisk (list string)
}.
Arguments Files : clear implicits.

(** The first lines of [search_resumes]: Python's [None] ([Some None])
    when one of the two files does not exist, the stored texts when
    both load, an exception ([None]) when [faiss.read_index] or
    [pickle.load] raises. *)
Definition load_store {Vector} (fs : Files Vector) : option (option (list string)) :=
  match faiss_index_file fs, text_store_file fs with
  | Missing, _ => Some None
  | _, Missing => Some None
  | Holds _, Holds texts => Some (Some texts)
  | _, _ => None
  end.

Section Batches.

Context {Embedding Vector : Type}.
Variable cos_sim : Embedding -> Embedding -> Q.
Variable presidio : option AnalyzerEngine.
Variable model : string -> option Embedding.
Variable topic_embeddings : list Embedding.

(** [SentenceTransformer(...).encode(texts)]: one vector for each text;
    [None] when loading the model or encoding raises. *)
Variable encode_batch : list string -> option (list Vector).

(** The pages of the PDF file of a given name, as PyMuPDF reads them;
    [None] when it raises. *)
Variable read_pdf : string -> option (list string).

(** Building the index of the vectors and [faiss.write_index]: [None]
    when they complete, so that the index file holds the vectors;
    [Some s] when one of them raises, leaving the index file in the
    state [s]. *)
Variable index_write_failure : list Vector -> option (OnDisk (list Vector)).

(** Opening the text store for writing and [pickle.dump]: [None] when
    they complete, [Some s] when one of them raises, leaving the text
    store in the state [s]. *)
Variable store_write_failure : list string -> option (OnDisk (list string)).

(** [[apply_guardrails(t) for t in texts]] *)
Fixpoint sanitize_each (texts : list string) (h : list (list Detection))
    : list string * list (list Detection) :=
  match texts with
  | [] => ([], h)
  | t :: rest =>
      let '(s, h) := apply_guardrails cos_sim presidio model topic_embeddings
                       t DEFAULT_DETECTION_MODE h in
      let '(ss, h) := sanitize_each rest h in
      (s :: ss, h)
  end.

(** [SBERTEmbedder.embed_texts] (the debug printing left out). *)
Definition embed_texts (texts : list string) (h : list (list Detection))
    : option (list Vector) * list (list Detection) :=
  let '(safe_texts, h) := sanitize_each texts h in
  (encode_batch safe_texts, h).

(** [extract_text_from_pdf] of [app/main.py]; [None] when opening or
    reading the file raises. *)
Definition extract_text_from_pdf (pdf_path : string) (h : list (list Detection))
    : option string * list (list Detection) :=
  match read_pdf pdf_path with
  | None => (None, h)
  | Some pages =>
      let raw := Py.strip (PyStr.join (String "010" EmptyString) pages) in
      let '(s, h) := apply_guardrails cos_sim presidio model topic_embeddings
                       raw DEFAULT_DETECTION_MODE h in
      (Some s, h)
  end.

(** [[extract_text_from_pdf(...) for pdf in pdf_files]] *)
Fixpoint extract_each (pdf_files : list string) (h : list (list Detection))
    : option (list string) * list (list Detection) :=
  match pdf_files with
  | [] => (Some [], h)
  | pdf :: rest =>
      match extract_text_from_pdf pdf h with
      | (None, h) => (None, h)
      | (Some t, h) =>
          match extract_each rest h with
          | (None, h) => (None, h)
          | (Some ts, h) => (Some (t :: ts), h)
          end
      end
  end.

(** [create_embeddings] *)
Definition create_embeddings (texts : list string) (h : list (list Detection))
    : option (list Vector) * list (list Detection) :=
  let '(safe_texts, h) := sanitize_each texts h in
  (encode_batch safe_texts, h).

Definition is_pdf (f : string) : bool := PyStr.endswith (PyStr.lower f) ".pdf".

(** [build_faiss_index]: the value returned ([None] for an exception),
    the files and the heap afterwards. *)
Definition build_faiss_index (fs : Files Vector) (h : list (list Detection))
    : option bool * Files Vector * list (list Detection) :=
  match resume_folder fs with
  | None =>
      (Some false,
       {| resume_folder := Some [];
          faiss_index_file := faiss_index_file fs;
          text_store_file := text_store_file fs |}, h)
  | Some names =>
      let pdf_files := List.filter is_pdf names in
      match pdf_files with
      | [] => (Some false, fs, h)
      | _ :: _ =>
          match extract_each pdf_files h with
          | (None, h) => (None, fs, h)
          | (Some texts, h) =>
              match create_embeddings texts h with
              | (None, h) => (None, fs, h)
              | (Some embeddings, h) =>
                  match index_write_failure embeddings with
                  | Some s =>
                      (None,
                       {| resume_folder := resume_folder fs;
                          faiss_index_file := s;
                          text_store_file := text_store_file fs |}, h)
                  | None =>
                      match store_write_failure texts with
                      | Some s =>
                          (None,
                           {| resume_folder := resume_folder fs;
                              faiss_index_file := Holds embeddings;
                              text_store_file := s |}, h)
                      | None =>
                          (Some true,
                           {| resume_folder := resume_folder fs;
                              faiss_index_file := Holds embeddings;
                              text_store_file := Holds texts |}, h)
                      end
                  end
              end
          end
      end
  end.

(** [search_resumes] on the files as they are on disk. *)
Definition search_on_disk (fs : Files Vector) (index_search : string -> list (list Z))
    (query : string) (h : list (list Detection))
    : option (option string) * list (list Detection) :=
  match load_store fs with
  | None => (None, h)
  | Some text_store =>
      search_resumes cos_sim presidio model topic_embeddings text_store
        index_search query h
  end.

End Batches.

(** The sanitized form of a text: what [apply_guardrails] returns for
    it (the heap it is run in has no influence, see
    [apply_guardrails_any_heap]). *)
Definition sanitized {Embedding} (cos_sim : Embedding -> Embedding -> Q)
    (presidio : option AnalyzerEngine) (model : string -> option Embedding)
    (topic_embeddings : list Embedding) (text : string) : string :=
  fst (apply_guardrails cos_sim presidio model topic_embeddings text
         DEFAULT_DETECTION_MODE []).

(** Stand-ins for the PDF reader, the encoder and the files, for the
    index of [app/main.py]. *)
Module SampleIndex.

(** An encoder that gives each text the vector of its length. *)
Definition encode_lengths (texts : list string) : option (list (list Z)) :=
  Some (map (fun t => [Py.len t]) texts).

(** A reader that knows two files and raises on any other. *)
Definition pdf_pages (name : string) : option (list string) :=
  if String.eqb name "ann.pdf" then Some [Sample.email_text]
  else if String.eqb name "Bob.PDF" then Some ["  CGPA"; "  "]
  else None.

Definition folder : Files (list Z) :=
  {| resume_folder := Some ["ann.pdf"; "notes.txt"; "Bob.PDF"];
     faiss_index_file := Missing;
     text_store_file := Missing |}.


Definition no_folder : Files (list Z) :=
  {| resume_folder := None;
     faiss_index_file := Missing;
     text_store_file := Missing |}.

(** Writes that complete, and a store write that raises half-way. *)
Definition completes {A} (data : A) : option (OnDisk A) := None.


Definition build (fs : Files (list Z))
    : option bool * Files (list Z) * list (list Detection) :=
  build_faiss_index Sample.cos_sim Sample.presidio Sample.keyword_model
    (Sample.embeddings_of Sample.keyword_model) encode_lengths pdf_pages
    completes completes fs [].


Definition search (fs : Files (list Z)) (hit : string -> list (list Z))
    (query : string) : option (option string) * list (list Detection) :=
  search_on_disk Sample.cos_sim Sample.presidio Sample.keyword_model
    (Sample.embeddings_of Sample.keyword_model) fs hit query [].

(** An index search that answers with a position outside the store. *)
Definition far_hit (query : string) : list (list Z) := [[7]].

Definition percentage_match : Semantic :=
  {| detected := true; similarity := 0.9; matched_topic := Some "percentage" |}.

Definition url_detection : Detection :=
  {| entity_type := "URL"; start := 0; end_ := 4; score := 0.6; text := "mail" |}.

End SampleIndex.



(** The literal that the keyword pass of [redact_pii] looks for under a
    semantic match: the one of the first of CGPA, MARKS, GPA and
    PERCENTAGE that the upper-case form of the matched topic contains,
    none when the match is no detection or its topic contains none of
    the four. *)
Definition topic_literal (semantic : Semantic) : option string :=
  if detected semantic then
    let topic := Py.upper (default "" (matched_topic semantic)) in
    if Py.contains "CGPA" topic then Some "CGPA"
    else if Py.contains "MARKS" topic then Some "marks"
    else if Py.contains "GPA" topic then Some "GPA"
    else if Py.contains "PERCENTAGE" topic then Some "%"
    else None
  else None.

(** The token that the keyword pass puts for a literal. *)
Definition topic_token (literal : string) : string :=
  if String.eqb literal "%" then "[PERCENTAGE_REDACTED]"
  else "[" ++ Py.upper literal ++ "_REDACTED]".

(** The primitives on sample inputs. *)
Example slice_to_ex : Py.slice_to "hello world" 5 = "hello".
Proof. reflexivity. Qed.
Example slice_from_ex : Py.slice_from "hello world" (-5) = "world".
Proof. reflexivity. Qed.
Example slice_from_far : Py.slice_from "abc" 10 = "".
Proof. reflexivity. Qed.
Example replace_ex : Py.replace "aaa b aa" "aa" "X" = "Xa b X".
Proof. reflexivity. Qed.
Example replace_empty_ex : Py.replace "ab" "" "-" = "-a-b-".
Proof. reflexivity. Qed.
Example upper_ex : Py.upper "bank account" = "BANK ACCOUNT".
Proof. reflexivity. Qed.
Example strip_ex : Py.strip "  a b  " = "a b".
Proof. reflexivity. Qed.
Example contains_ex : Py.contains "GPA" "CGPA" = true.
Proof. reflexivity. Qed.


(* ================================================================== *)
(** ** Facts about the primitives *)

Lemma insert_desc_perm d l : Permutation (insert_desc d l) (d :: l).
Proof.
  induction l as [|e l IH]; simpl; [reflexivity|].
  destruct (start d <? start e); [|reflexivity].
  rewrite IH. apply perm_swap.
Qed.

Lemma sort_desc_perm l : Permutation (sort_desc l) l.
Proof.
  induction l as [|d l IH]; simpl; [reflexivity|].
  fold (sort_desc l). rewrite insert_desc_perm. now constructor.
Qed.

Lemma insert_desc_sorted d l :
  StronglySorted start_ge l -> StronglySorted start_ge (insert_desc d l).
Proof.
  induction 1 as [|e l Hl IH He]; simpl.
  - repeat constructor.
  - destruct (Z.ltb_spec (start d) (start e)) as [Hlt|Hge].
    + constructor; [exact IH|].
      rewrite Forall_forall. intros x Hx.
      rewrite insert_desc_perm in Hx.
      apply elem_of_cons in Hx as [->|Hx]; [unfold start_ge; lia|].
      rewrite Forall_forall in He. now apply He.
    + constructor; [now constructor|].
      constructor; [exact Hge|].
      eapply Forall_impl; [exact He|].
      unfold start_ge. intros x Hx. lia.
Qed.

Lemma sort_desc_sorted l : StronglySorted start_ge (sort_desc l).
Proof.
  induction l as [|d l IH]; simpl; [constructor|].
  now apply insert_desc_sorted.
Qed.

(** A list already in descending order is left as it is: the sort is
    stable. *)
Lemma sort_desc_fixpoint l : StronglySorted start_ge l -> sort_desc l = l.
Proof.
  induction 1 as [|d l Hl IH Hd]; simpl; [reflexivity|].
  fold (sort_desc l). rewrite IH.
  destruct l as [|e l']; simpl; [reflexivity|].
  inversion Hd as [|? ? He _]; subst. unfold start_ge in He.
  destruct (Z.ltb_spec (start d) (start e)); [lia|reflexivity].
Qed.

Lemma deref_store_sort h a :
  deref (store h a (sort_desc (deref h a))) a = sort_desc (deref h a).
Proof.
  unfold deref, store.
  destruct (h !! a) as [l|] eqn:Ha; simpl.
  - rewrite list_lookup_insert_eq; [reflexivity|].
    now apply lookup_lt_Some in Ha.
  - rewrite list_insert_ge; [now rewrite Ha|].
    now apply lookup_ge_None in Ha.
Qed.

Lemma deref_store_other h a b l : a <> b -> deref (store h a l) b = deref h b.
Proof.
  intros Hab. unfold deref, store. now rewrite list_lookup_insert_ne.
Qed.

Lemma deref_alloc h l : deref (snd (alloc h l)) (fst (alloc h l)) = l.
Proof.
  unfold deref, alloc; simpl.
  now rewrite lookup_app_r, Nat.sub_diag by lia.
Qed.

(* ================================================================== *)
(** ** The risk score *)

Lemma py_min_Qmin a b : (Py.min a b == Qmin a b)%Q.
Proof.
  unfold Py.min. destruct (Qle_bool a b) eqn:E.
  - apply Qle_bool_iff in E. symmetry. now apply Q.min_l.
  - symmetry. apply Q.min_r. apply Qlt_le_weak, Qnot_le_lt.
    intros H. apply Qle_bool_iff in H. congruence.
Qed.

Lemma py_gt_iff a b : Py.gt a b = true <-> (b < a)%Q.
Proof.
  unfold Py.gt. rewrite negb_true_iff. split.
  - intros E. apply Qnot_le_lt. intros H. apply Qle_bool_iff in H. congruence.
  - intros H. destruct (Qle_bool a b) eqn:E; [|reflexivity].
    apply Qle_bool_iff in E. lra.
Qed.

Section RiskScore.

Context {Embedding : Type} (self : AdvancedPIIDetector Embedding).

Let bump (score : Q) (d : Detection) : Q :=
  if is_high_risk self d then (score + 0.4)%Q else score.

Lemma high_risk_loop detections score :
  (fold_left bump detections score
   == score + 0.4 * inject_Z (Z.of_nat (high_risk_count self detections)))%Q.
Proof.
  revert score. unfold high_risk_count.
  induction detections as [|d l IH]; intros score; simpl.
  - ring.
  - rewrite IH. unfold bump. destruct (is_high_risk self d); simpl.
    + rewrite Nat2Z.inj_succ. unfold Z.succ. rewrite inject_Z_plus. ring.
    + ring.
Qed.

Lemma high_risk_count_app l1 l2 :
  high_risk_count self (l1 ++ l2)%list
  = (high_risk_count self l1 + high_risk_count self l2)%nat.
Proof.
  unfold high_risk_count. now rewrite List.filter_app, List.length_app.
Qed.

Lemma calculate_risk_loop detections semantic :
  (_calculate_risk self detections semantic
   == Qmin (inject_Z (Z.of_nat (List.length detections)) * 0.3
            + (if detected semantic then similarity semantic * 0.5 else 0)
            + 0.4 * inject_Z (Z.of_nat (high_risk_count self detections)))
           1.0)%Q.
Proof.
  unfold _calculate_risk. rewrite py_min_Qmin. fold bump. rewrite high_risk_loop.
  apply Q.min_compat; [|reflexivity].
  destruct (detected semantic); ring.
Qed.

(** C3. For every list of findings and every semantic match the score
    of [_calculate_risk] is [min(1.0, 0.3 * n + s + 0.4 * k)], with [n]
    the number of findings, [k] the number of those of a high-risk
    type, and [s] half the similarity when the match is a detection
    and zero otherwise (scores as exact rationals). *)
Theorem calculate_risk_formula detections semantic :
  (_calculate_risk self detections semantic
   == risk_formula self detections semantic)%Q.
Proof.
  unfold risk_formula. rewrite calculate_risk_loop, Q.min_comm.
  apply Q.min_compat; [reflexivity|].
  destruct (detected semantic); ring.
Qed.

Lemma calculate_risk_bounds detections semantic :
  semantic_wf semantic ->
  (0 <= _calculate_risk self detections semantic <= 1)%Q.
Proof.
  intros Hwf. rewrite calculate_risk_loop.
  split; [|eapply Qle_trans; [apply Q.le_min_r|lra]].
  apply Q.min_glb; [|lra].
  assert (0 <= inject_Z (Z.of_nat (List.length detections)))%Q as Hn
    by (change 0%Q with (inject_Z 0); rewrite <- Zle_Qle; lia).
  assert (0 <= inject_Z (Z.of_nat (high_risk_count self detections)))%Q as Hk
    by (change 0%Q with (inject_Z 0); rewrite <- Zle_Qle; lia).
  unfold semantic_wf in Hwf.
  destruct (detected semantic); [specialize (Hwf eq_refl)|]; lra.
Qed.

End RiskScore.

(* ================================================================== *)
(** ** The semantic matcher *)

Lemma max_from_In best l : max_from best l = best \/ In (max_from best l) l.
Proof.
  revert best. induction l as [|x l IH]; intros best; simpl; [now left|].
  destruct (Py.gt x best).
  - destruct (IH x) as [->|H]; auto.
  - destruct (IH best) as [->|H]; auto.
Qed.

Lemma max_from_upper best l :
  (best <= max_from best l)%Q
  /\ Forall (fun s => (s <= max_from best l)%Q) l.
Proof.
  revert best. induction l as [|x l IH]; intros best; simpl.
  - split; [lra|constructor].
  - destruct (Py.gt x best) eqn:E.
    + apply py_gt_iff in E. destruct (IH x) as [Hx Hl].
      split; [lra|]. now constructor.
    + assert (x <= best)%Q as Hxb.
      { apply Qnot_lt_le. intros H. apply py_gt_iff in H. congruence. }
      destruct (IH best) as [Hb Hl].
      split; [exact Hb|]. constructor; [lra|exact Hl].
Qed.


Section SemanticMatcher.

Context {Embedding : Type}.
Variable cos_sim : Embedding -> Embedding -> Q.
Variable self : AdvancedPIIDetector Embedding.

(** What the matcher returns: the result of the [except] branch, or
    the largest cosine, flagged as a detection exactly when it is
    above the threshold. *)
Lemma detect_semantic_pii_cases text :
  let m := detect_semantic_pii cos_sim self text in
  m = semantic_failed
  \/ exists e,
       semantic_model self text = Some e
       /\ In (similarity m) (map (cos_sim e) (sensitive_embeddings self))
       /\ Forall (fun s => (s <= similarity m)%Q)
                 (map (cos_sim e) (sensitive_embeddings self))
       /\ detected m
          = Py.gt (similarity m) (semantic_similarity (thresholds (config self))).
Proof.
  unfold detect_semantic_pii.
  destruct (semantic_model self text) as [e|]; [|now left].
  destruct (map (cos_sim e) (sensitive_embeddings self)) as [|s0 sims] eqn:Hs;
    [now left|].
  assert (In (max_from s0 sims) (s0 :: sims)) as Hin
    by (destruct (max_from_In s0 sims) as [->|H]; [now left|now right]).
  assert (Forall (fun s => (s <= max_from s0 sims)%Q) (s0 :: sims)) as Hup
    by (destruct (max_from_upper s0 sims); now constructor).
  destruct (Py.gt (max_from s0 sims) _) eqn:Hgt.
  - destruct (nth_error _ _); [|now left].
    right. exists e. cbn [similarity detected]. now rewrite Hs, Hgt.
  - right. exists e. cbn [similarity detected]. now rewrite Hs, Hgt.
Qed.

Lemma detected_above_threshold text :
  let m := detect_semantic_pii cos_sim self text in
  detected m = true ->
  (semantic_similarity (thresholds (config self)) < similarity m)%Q.
Proof.
  intros m Hd. destruct (detect_semantic_pii_cases text) as [Hf|(e & _ & _ & _ & Hg)];
    fold m in Hf || fold m in Hg.
  - rewrite Hf in Hd. discriminate.
  - rewrite Hd in Hg. symmetry in Hg. now apply py_gt_iff in Hg.
Qed.

(** Under a threshold that is not negative the matcher builds
    well-formed matches. *)
Lemma detect_semantic_pii_wf text :
  (0 <= semantic_similarity (thresholds (config self)))%Q ->
  semantic_wf (detect_semantic_pii cos_sim self text).
Proof.
  intros Hthr Hd. apply detected_above_threshold in Hd. lra.
Qed.


End SemanticMatcher.



(* ================================================================== *)
(** ** The redactor *)

Lemma substring_whole s : substring 0 (String.length s) s = s.
Proof. induction s as [|c s IH]; simpl; [reflexivity|now rewrite IH]. Qed.

Lemma substring_cut s n :
  substring 0 n s ++ substring n (String.length s - n) s = s.
Proof.
  revert n. induction s as [|c s IH]; intros [|n]; simpl; try reflexivity.
  - now rewrite substring_whole.
  - change (String c (substring 0 n s ++ substring n (String.length s - n) s)
            = String c s).
    now rewrite IH.
Qed.

Lemma substring_cut_mid s : forall a m,
  (a + m <= String.length s)%nat ->
  substring a m s ++ substring (a + m) (String.length s - (a + m)) s
  = substring a (String.length s - a) s.
Proof.
  induction s as [|c s IH]; intros [|a] m Hle.
  - destruct m; reflexivity.
  - reflexivity.
  - rewrite Nat.add_0_l, Nat.sub_0_r, substring_whole. apply substring_cut.
  - simpl in *. apply IH. lia.
Qed.

(** A span inside the text cuts it in three; the step of the loop keeps
    the two outer parts and puts the token in place of the middle. *)
Lemma slice_three_parts s i j :
  0 <= i <= j -> j <= Py.len s ->
  s = Py.slice_to s i ++ Py.slice s i j ++ Py.slice_from s j.
Proof.
  intros Hij Hj. unfold Py.slice_to, Py.slice, Py.slice_from, Py.slice_bound, Py.len in *.
  destruct (Z.ltb_spec i 0); [lia|]. destruct (Z.ltb_spec j 0); [lia|].
  rewrite !Z.min_l by lia.
  set (a := Z.to_nat i). set (b := Z.to_nat j).
  assert (a <= b)%nat by lia. assert (b <= String.length s)%nat by lia.
  pose proof (substring_cut_mid s a (b - a)) as Hmid.
  replace (a + (b - a))%nat with b in Hmid by lia.
  rewrite Hmid by lia. symmetry. apply substring_cut.
Qed.

Section Redactor.

Context {Embedding : Type}.
Variable self : AdvancedPIIDetector Embedding.

Lemma repl_of_token d :
  repl_of self d = token_for (redaction_patterns (config self)) (entity_type d).
Proof.
  unfold repl_of, token_for.
  now destruct (redaction_patterns (config self) !! entity_type d).
Qed.



Lemma redact_pii_eq text analysis h :
  redact_pii self text analysis h
  = (redact_topic (semantic_detection analysis)
       (fold_left (redact_span self)
          (sort_desc (deref h (presidio_detections analysis))) text),
     store h (presidio_detections analysis)
       (sort_desc (deref h (presidio_detections analysis)))).
Proof. unfold redact_pii. now rewrite deref_store_sort. Qed.


(** C8, as the code has it. [redact_pii] sorts the list of findings of
    the report in place: after the call the list object holds the
    same findings in descending order of [start] (ties in their
    former order), it is the same list as before when it already was
    in that order, and no other list object changes. *)
Theorem redact_pii_sorts_report_in_place text analysis h :
  let a := presidio_detections analysis in
  let h' := snd (redact_pii self text analysis h) in
  deref h' a = sort_desc (deref h a)
  /\ Permutation (deref h' a) (deref h a)
  /\ StronglySorted start_ge (deref h' a)
  /\ (StronglySorted start_ge (deref h a) -> deref h' a = deref h a)
  /\ (forall b, b <> a -> deref h' b = deref h b)
  /\ List.length h' = List.length h.
Proof.
  intros a h'. subst h'. rewrite redact_pii_eq. simpl.
  fold a. rewrite deref_store_sort.
  split; [reflexivity|]. split; [apply sort_desc_perm|].
  split; [apply sort_desc_sorted|]. split; [apply sort_desc_fixpoint|].
  split.
  - intros b Hb. apply deref_store_other. congruence.
  - unfold store. apply length_insert.
Qed.

(** The topic pass leaves the text alone for a topic that is not an
    education topic. *)
Lemma redact_topic_other semantic redacted :
  is_education_topic (default "" (matched_topic semantic)) = false ->
  redact_topic semantic redacted = redacted.
Proof.
  unfold is_education_topic, redact_topic. intros H.
  apply orb_false_iff in H as [H Hp]. apply orb_false_iff in H as [H Hg].
  apply orb_false_iff in H as [Hc Hm].
  destruct (detected semantic); [|reflexivity].
  now rewrite Hc, Hm, Hg, Hp.
Qed.

End Redactor.

(** *** Why the order is descending

    A replacement at [start] leaves the text before [start] as it is,
    so the offsets of the findings further left stay valid. *)

Lemma substring_0_length s : forall m,
  String.length (substring 0 m s) = Nat.min m (String.length s).
Proof.
  induction s as [|c s IH]; intros [|m]; simpl; try reflexivity.
  now rewrite IH.
Qed.

Lemma substring_0_app a b : forall n,
  (n <= String.length a)%nat -> substring 0 n (a ++ b) = substring 0 n a.
Proof.
  induction a as [|c a IH]; intros [|n] Hn; simpl in Hn.
  - now destruct b.
  - lia.
  - reflexivity.
  - change (String c (substring 0 n (a ++ b)) = String c (substring 0 n a)).
    rewrite IH by lia. reflexivity.
Qed.

Lemma substring_0_twice s : forall n m,
  (n <= m)%nat -> substring 0 n (substring 0 m s) = substring 0 n s.
Proof.
  induction s as [|c s IH]; intros [|n] [|m] Hnm; simpl; try reflexivity; try lia.
  rewrite IH by lia. reflexivity.
Qed.

Lemma length_append a b :
  String.length (a ++ b) = (String.length a + String.length b)%nat.
Proof.
  induction a as [|c a IH]; [reflexivity|].
  change (S (String.length (a ++ b)) = S (String.length a + String.length b)).
  now rewrite IH.
Qed.

Lemma slice_bound_inside n i : 0 <= i <= n -> Py.slice_bound n i = Z.to_nat i.
Proof.
  intros Hi. unfold Py.slice_bound. destruct (Z.ltb_spec i 0); lia.
Qed.

Section Prefix.

Context {Embedding : Type}.
Variable self : AdvancedPIIDetector Embedding.

Lemma redact_span_len redacted d :
  0 <= start d <= Py.len redacted ->
  start d <= Py.len (redact_span self redacted d).
Proof.
  intros Hd. unfold redact_span, Py.slice_to.
  rewrite slice_bound_inside by lia.
  unfold Py.len in *. rewrite length_append, substring_0_length. lia.
Qed.

Lemma redact_span_keeps_prefix redacted d e :
  0 <= e <= start d -> start d <= Py.len redacted ->
  Py.slice_to (redact_span self redacted d) e = Py.slice_to redacted e.
Proof.
  intros He Hd.
  pose proof (redact_span_len redacted d ltac:(lia)) as Hlen.
  unfold Py.slice_to. rewrite !slice_bound_inside by lia.
  unfold redact_span, Py.slice_to. rewrite slice_bound_inside by lia.
  unfold Py.len in *.
  rewrite substring_0_app by (rewrite substring_0_length; lia).
  apply substring_0_twice. lia.
Qed.

(** Findings taken in descending order of [start], each starting inside
    the text as it was given: the text before the leftmost start is
    the same after the loop. *)
Lemma redact_spans_keep_prefix l : forall text e,
  StronglySorted start_ge l ->
  Forall (fun d => e <= start d <= Py.len text) l ->
  0 <= e ->
  Py.slice_to (fold_left (redact_span self) l text) e = Py.slice_to text e.
Proof.
  induction l as [|d l IH]; intros text e Hs Hr He; simpl; [reflexivity|].
  apply StronglySorted_inv in Hs as [Hs Hd].
  apply Forall_cons in Hr as [Hdr Hr].
  rewrite IH; [apply redact_span_keeps_prefix; lia|exact Hs| |exact He].
  rewrite Forall_forall in *. intros x Hx.
  specialize (Hd x Hx). specialize (Hr x Hx). unfold start_ge in Hd.
  pose proof (redact_span_len text d ltac:(lia)). lia.
Qed.

End Prefix.

(* ================================================================== *)
(** ** The guardrails API *)

Section Analysis.

Context {Embedding : Type}.
Variable cos_sim : Embedding -> Embedding -> Q.
Variable self : AdvancedPIIDetector Embedding.

Lemma analyze_text_eq text h :
  analyze_text cos_sim self text h
  = ({| contains_pii :=
          match detect_pii_with_presidio self text with
          | [] => detected (detect_semantic_pii cos_sim self text)
          | _ :: _ => true
          end;
        presidio_detections := List.length h;
        semantic_detection := detect_semantic_pii cos_sim self text;
        all_detections := List.length h;
        risk_score :=
          _calculate_risk self (detect_pii_with_presidio self text)
            (detect_semantic_pii cos_sim self text) |},
     (h ++ [detect_pii_with_presidio self text])%list).
Proof. reflexivity. Qed.

Lemma deref_fresh h (l : list Detection) :
  deref (h ++ [l])%list (List.length h) = l.
Proof. exact (deref_alloc h l). Qed.


End Analysis.

Section Api.

Context {Embedding : Type}.
Variable cos_sim : Embedding -> Embedding -> Q.
Variable presidio : option AnalyzerEngine.
Variable model : string -> option Embedding.
Variable topic_embeddings : list Embedding.

Let the_detector := detector presidio model topic_embeddings.
Let sanitize_in (text mode : string) (h : list (list Detection)) :=
  apply_guardrails cos_sim presidio model topic_embeddings text mode h.

(** The text returned by [apply_guardrails], without the heap. *)
Lemma apply_guardrails_value text mode h :
  fst (sanitize_in text mode h)
  = let detections := detect_pii_with_presidio the_detector text in
    let semantic := detect_semantic_pii cos_sim the_detector text in
    if match detections with [] => detected semantic | _ :: _ => true end
    then redact_topic semantic
           (fold_left (redact_span the_detector) (sort_desc detections) text)
    else text.
Proof.
  unfold sanitize_in, apply_guardrails. fold the_detector.
  rewrite analyze_text_eq. cbn [contains_pii semantic_detection].
  match goal with |- context [if ?b then _ else _] => destruct b end;
    [|reflexivity].
  rewrite redact_pii_eq. cbn [fst presidio_detections semantic_detection].
  now rewrite deref_fresh.
Qed.

(** C9. The mode argument of [apply_guardrails] has no effect: under
    any two modes the sanitized text (and the heap) are the same. The
    table of modes is not consulted. *)
Theorem apply_guardrails_mode_independent text m1 m2 h :
  sanitize_in text m1 h = sanitize_in text m2 h.
Proof. reflexivity. Qed.

(** C10. When the analyzer finds no entity in a text and the semantic
    match is a detection of a topic whose upper-case form contains
    none of CGPA, MARKS, GPA and PERCENTAGE, [apply_guardrails] returns
    the text as it is. *)
Theorem topic_pass_only_education text mode h :
  detect_pii_with_presidio the_detector text = [] ->
  detected (detect_semantic_pii cos_sim the_detector text) = true ->
  is_education_topic
    (default "" (matched_topic (detect_semantic_pii cos_sim the_detector text)))
    = false ->
  fst (sanitize_in text mode h) = text.
Proof.
  intros Hnone Hdet Htopic. rewrite apply_guardrails_value. cbv zeta.
  rewrite Hnone, Hdet. simpl. now apply redact_topic_other.
Qed.

End Api.

(* ================================================================== *)
(** ** The [/query] handler *)

Section QueryHandler.

Context {Embedding : Type}.
Variable cos_sim : Embedding -> Embedding -> Q.
Variable presidio : option AnalyzerEngine.
Variable model : string -> option Embedding.
Variable topic_embeddings : list Embedding.
Variable re_sub : string -> string -> string -> string.
Variable text_store : option (list string).
Variable index_search : string -> list (list Z).
Variable generate_content : string -> Generation.




End QueryHandler.

(* ================================================================== *)
(** ** The properties on sample inputs *)

Example education_topics :
  List.filter is_education_topic (sensitive_topics PII_DETECTION_CONFIG)
  = ["cgpa"; "marks"; "gpa"; "percentage"].
Proof. reflexivity. Qed.

Example fallback_token :
  token_for (redaction_patterns PII_DETECTION_CONFIG) "LOCATION"
  = "[LOCATION_REDACTED]".
Proof. vm_compute. reflexivity. Qed.

Example configured_token :
  token_for (redaction_patterns PII_DETECTION_CONFIG) "URL" = "[LINK_REDACTED]".
Proof. vm_compute. reflexivity. Qed.

Example sanitize_emails :
  Sample.sanitize Sample.email_text = "mail [EMAIL_REDACTED] or [EMAIL_REDACTED]".
Proof. vm_compute. reflexivity. Qed.

Example sanitize_marks :
  Sample.sanitize "my marks are 90% in gpa" = "my [MARKS_REDACTED] are 90% in gpa".
Proof. vm_compute. reflexivity. Qed.

Example keyword_model_embeds_topics :
  mapM Sample.keyword_model (sensitive_topics PII_DETECTION_CONFIG)
  = Some (map (fun i => {| Sample.sign := 1; Sample.axis := i |}) (seq 0 32)).
Proof. vm_compute. reflexivity. Qed.

Example keyword_detector_constructed :
  new PII_DETECTION_CONFIG Sample.presidio Sample.keyword_model
  = Some Sample.keyword_detector.
Proof. vm_compute. reflexivity. Qed.

Example semantic_step_fails_open :
  detect_semantic_pii Sample.cos_sim
    (detector Sample.presidio Sample.failing_model []) "any text"
  = {| detected := false; similarity := 0.0; matched_topic := None |}.
Proof. reflexivity. Qed.

Example query_without_store :
  fst (query_resume Sample.cos_sim Sample.presidio Sample.keyword_model
         (Sample.embeddings_of Sample.keyword_model) Sample.re_sub_no_match
         None Sample.first_hit (Sample.answer_with "") (Some " who is Ann ") [])
  = Json (ErrorBody "No relevant resume data found for your query.") 404.
Proof. vm_compute. reflexivity. Qed.

Example query_missing :
  Sample.query None = Json (ErrorBody "Query is required") 400.
Proof. reflexivity. Qed.


(** C2, as stated, fails: the token put for CGPA contains CGPA, and a
    matcher that finds the topic again in the token has it replaced
    again. *)
Lemma sanitize_not_idempotent :
  let once :=
    apply_guardrails Sample.cos_sim Sample.presidio Sample.keyword_model
      (Sample.embeddings_of Sample.keyword_model) "CGPA" DEFAULT_DETECTION_MODE [] in
  let twice :=
    apply_guardrails Sample.cos_sim Sample.presidio Sample.keyword_model
      (Sample.embeddings_of Sample.keyword_model) (fst once)
      DEFAULT_DETECTION_MODE (snd once) in
  fst once = "[CGPA_REDACTED]"
  /\ fst twice = "[[CGPA_REDACTED]_REDACTED]"
  /\ fst twice <> fst once.
Proof. vm_compute. repeat split; congruence. Qed.



(** C8, as stated, fails: after [redact_pii] the findings of the report
    are in the opposite order. *)
Lemma redact_pii_reorders_report :
  let a := fst (analyze_text Sample.cos_sim Sample.keyword_detector Sample.email_text []) in
  let h := snd (analyze_text Sample.cos_sim Sample.keyword_detector Sample.email_text []) in
  let h' := snd (redact_pii Sample.keyword_detector Sample.email_text a h) in
  map start (deref h (presidio_detections a)) = [5; 16]
  /\ map start (deref h' (presidio_detections a)) = [16; 5]
  /\ deref h' (presidio_detections a) <> deref h (presidio_detections a)
  /\ deref h' (all_detections a) <> deref h (all_detections a).
Proof. vm_compute. repeat split; congruence. Qed.

(** C10 on a text about a password. *)
Lemma topic_pass_only_education_witness :
  detect_pii_with_presidio Sample.keyword_detector "my password" = []
  /\ detect_semantic_pii Sample.cos_sim Sample.keyword_detector "my password"
     = {| detected := true; similarity := 1; matched_topic := Some "password" |}
  /\ is_education_topic "password" = false
  /\ Sample.sanitize "my password" = "my password".
Proof.
  split; [reflexivity|]. split; [vm_compute; reflexivity|].
  split; [reflexivity|].
  apply (topic_pass_only_education Sample.cos_sim Sample.presidio Sample.keyword_model
           (Sample.embeddings_of Sample.keyword_model) "my password"
           DEFAULT_DETECTION_MODE []); reflexivity.
Defined.

(* ================================================================== *)
(** ** Facts about the string primitives *)

Lemma lstrip_length s : (String.length (Py.lstrip s) <= String.length s)%nat.
Proof.
  induction s as [|c s IH]; simpl; [lia|].
  destruct (Py.isspace c); simpl; lia.
Qed.

Lemma rstrip_length s : (String.length (Py.rstrip s) <= String.length s)%nat.
Proof.
  induction s as [|c s IH]; simpl; [lia|].
  destruct (Py.rstrip s); [destruct (Py.isspace c)|]; simpl in *; lia.
Qed.

Lemma strip_len s : Py.len (Py.strip s) <= Py.len s.
Proof.
  unfold Py.len, Py.strip.
  pose proof (rstrip_length (Py.lstrip s)). pose proof (lstrip_length s). lia.
Qed.

Lemma rstrip_idem s : Py.rstrip (Py.rstrip s) = Py.rstrip s.
Proof.
  induction s as [|c s IH]; simpl; [reflexivity|].
  destruct (Py.rstrip s) as [|a r] eqn:E.
  - destruct (Py.isspace c) eqn:Hc; simpl; [reflexivity|now rewrite Hc].
  - change (Py.rstrip (String c (String a r)))
      with (match Py.rstrip (String a r) with
            | EmptyString => if Py.isspace c then EmptyString else String c EmptyString
            | r0 => String c r0
            end).
    now rewrite IH.
Qed.

Lemma lstrip_head s :
  Py.lstrip s = EmptyString
  \/ exists c r, Py.lstrip s = String c r /\ Py.isspace c = false.
Proof.
  induction s as [|c s IH]; simpl; [now left|].
  destruct (Py.isspace c) eqn:Hc; [exact IH|]. right. now exists c, s.
Qed.

Lemma rstrip_head c r :
  Py.isspace c = false -> exists r', Py.rstrip (String c r) = String c r'.
Proof.
  intros Hc. simpl. destruct (Py.rstrip r); [rewrite Hc|]; eauto.
Qed.

Lemma strip_idem s : Py.strip (Py.strip s) = Py.strip s.
Proof.
  unfold Py.strip.
  destruct (lstrip_head s) as [E|(c & r & E & Hc)]; rewrite E; [reflexivity|].
  destruct (rstrip_head c r Hc) as [r' E']. rewrite E'.
  simpl Py.lstrip. rewrite Hc, <- E'. apply rstrip_idem.
Qed.

Lemma lstrip_all_space s : all_space s = true -> Py.lstrip s = EmptyString.
Proof.
  induction s as [|c s IH]; simpl; [reflexivity|].
  intros H. apply andb_prop in H as [Hc Hs]. rewrite Hc. now apply IH.
Qed.

Lemma strip_all_space s : all_space s = true -> Py.strip s = EmptyString.
Proof. intros H. unfold Py.strip. now rewrite lstrip_all_space. Qed.

Lemma substring_length_le s : forall a n,
  (String.length (substring a n s) <= n)%nat.
Proof.
  induction s as [|c s IH]; intros [|a] [|n]; simpl; try lia.
  - specialize (IH 0%nat n). lia.
  - apply IH.
  - apply IH.
Qed.

Lemma slice_len_le p i m :
  0 <= i -> 0 <= m -> Py.len (Py.slice p i (i + m)) <= m.
Proof.
  intros Hi Hm. unfold Py.len, Py.slice, Py.slice_bound.
  destruct (Z.ltb_spec i 0); [lia|]. destruct (Z.ltb_spec (i + m) 0); [lia|].
  match goal with |- Z.of_nat (String.length (substring ?a ?n p)) <= _ =>
    pose proof (substring_length_le p a n) end.
  lia.
Qed.

Lemma range0_nonneg stop step l :
  0 < step -> PyStr.range0 stop step = Some l -> Forall (fun i => 0 <= i) l.
Proof.
  unfold PyStr.range0. intros Hs.
  destruct (Z.eqb_spec step 0); [lia|]. intros [= <-].
  apply Forall_forall. intros i Hi.
  apply list_elem_of_In, List.in_map_iff in Hi as (k & <- & _). lia.
Qed.

Lemma range0_defined stop step :
  step <> 0 -> exists l, PyStr.range0 stop step = Some l.
Proof.
  intros Hs. unfold PyStr.range0. destruct (Z.eqb_spec step 0); [lia|]. eauto.
Qed.

(* ================================================================== *)
(** ** [pdf_utils.segment_text] *)

Section SegmentText.

Variable max_chunk_chars : Z.

(** What the loop keeps true of [chunks] and [current]. *)
Let good (P : string -> Prop) (state : option (list string * string)) : Prop :=
  exists chunks current,
    state = Some (chunks, current) /\ Forall P chunks
    /\ (current = EmptyString \/ P current).

Let bounded (c : string) : Prop := Py.len c <= max_chunk_chars.

Lemma long_pieces_bounded p :
  1 <= max_chunk_chars ->
  exists pieces,
    PdfUtils.long_pieces p max_chunk_chars = Some pieces
    /\ Forall bounded pieces
    /\ Forall (fun c => Py.strip c = c) pieces.
Proof.
  intros Hmax. unfold PdfUtils.long_pieces.
  destruct (range0_defined (Py.len p) max_chunk_chars) as [l Hl]; [lia|].
  pose proof (range0_nonneg (Py.len p) max_chunk_chars l ltac:(lia) Hl) as Hnn.
  rewrite Hl. simpl. eexists. split; [reflexivity|].
  split; apply Forall_forall; intros c Hc;
    apply list_elem_of_In, List.in_map_iff in Hc as (i & <- & Hi).
  - rewrite Forall_forall in Hnn. apply list_elem_of_In in Hi.
    specialize (Hnn i Hi). unfold bounded.
    pose proof (strip_len (Py.slice p i (i + max_chunk_chars))).
    pose proof (slice_len_le p i max_chunk_chars). lia.
  - apply strip_idem.
Qed.

Lemma segment_step_bounded state p :
  1 <= max_chunk_chars ->
  good bounded state ->
  good bounded (PdfUtils.segment_step max_chunk_chars state p).
Proof.
  intros Hmax (chunks & current & -> & Hch & Hcur).
  assert (Py.len current <= max_chunk_chars) as Hlen
    by (destruct Hcur as [->|H]; [unfold Py.len; simpl; lia|exact H]).
  unfold PdfUtils.segment_step. simpl.
  destruct (Z.leb_spec (Py.len current + Py.len p + 1) max_chunk_chars) as [Hfit|Hno].
  - eexists _, _. split; [reflexivity|]. split; [exact Hch|]. right.
    destruct current as [|c current]; unfold bounded, Py.len in *; simpl in *; [lia|].
    change (String c current ++ String "010" p)
      with (String c (current ++ String "010" p)).
    simpl. rewrite length_append. simpl. lia.
  - assert (Forall bounded
              (if Py.truthy current then (chunks ++ [Py.strip current])%list
               else chunks)) as Hch'.
    { destruct (Py.truthy current); [|exact Hch].
      apply Forall_app. split; [exact Hch|]. constructor; [|constructor].
      unfold bounded. pose proof (strip_len current). lia. }
    destruct (Z.ltb_spec max_chunk_chars (Py.len p)) as [Hlong|Hshort].
    + destruct (long_pieces_bounded p Hmax) as (pieces & -> & Hp & _). simpl.
      eexists _, _. split; [reflexivity|]. split; [|now left].
      apply Forall_app. now split.
    + eexists _, _. split; [reflexivity|]. split; [exact Hch'|]. now right.
Qed.

Lemma segment_loop_bounded ps : forall state,
  1 <= max_chunk_chars ->
  good bounded state ->
  good bounded (fold_left (PdfUtils.segment_step max_chunk_chars) ps state).
Proof.
  induction ps as [|p ps IH]; intros state Hmax Hst; simpl; [exact Hst|].
  apply IH; [exact Hmax|]. now apply segment_step_bounded.
Qed.

(** X22. With a limit of at least one character [segment_text] returns, and
    no chunk is longer than the limit. *)
Theorem segment_text_chunks_bounded text :
  1 <= max_chunk_chars ->
  exists chunks,
    PdfUtils.segment_text text max_chunk_chars = Some chunks
    /\ Forall (fun c => Py.len c <= max_chunk_chars) chunks.
Proof.
  intros Hmax. unfold PdfUtils.segment_text.
  destruct (segment_loop_bounded (PdfUtils.stripped_lines text)
              (Some ([], EmptyString)) Hmax)
    as (chunks & current & -> & Hch & Hcur).
  { exists [], EmptyString. split; [reflexivity|]. split; [constructor|now left]. }
  simpl. eexists. split; [reflexivity|].
  destruct (Py.truthy current); [|exact Hch].
  apply Forall_app. split; [exact Hch|]. constructor; [|constructor].
  pose proof (strip_len current) as Hs.
  destruct Hcur as [->|Hb]; [unfold Py.len in *; simpl in *; lia|unfold bounded in Hb; lia].
Qed.

End SegmentText.

Lemma app_cons c (a b : string) : String c a ++ b = String c (a ++ b).
Proof. reflexivity. Qed.

Lemma app_nil_l (b : string) : EmptyString ++ b = b.
Proof. reflexivity. Qed.

Lemma app_nil_r (a : string) : a ++ EmptyString = a.
Proof. induction a as [|c a IH]; [reflexivity|]. now rewrite app_cons, IH. Qed.

Lemma app_assoc_s (a b c : string) : (a ++ b) ++ c = a ++ (b ++ c).
Proof. induction a as [|x a IH]; [reflexivity|]. now rewrite !app_cons, IH. Qed.

Lemma app_inv_tail_nl (a b : string) :
  a ++ String "010" EmptyString = b ++ String "010" EmptyString -> a = b.
Proof.
  revert b. induction a as [|x a IH]; intros [|y b]; rewrite ?app_cons, ?app_nil_l;
    intros H; try reflexivity.
  - injection H as _ H. destruct b; discriminate.
  - injection H as _ H. destruct a; discriminate.
  - injection H as -> H. f_equal. now apply IH.
Qed.

Lemma truthy_true s : Py.truthy s = true <-> s <> EmptyString.
Proof. destruct s; simpl; split; congruence. Qed.

Lemma trimmed_strip s : trimmed s -> Py.strip s = s.
Proof. intros (_ & Hl & Hr). unfold Py.strip. now rewrite Hl. Qed.

Lemma strip_trimmed s : Py.truthy (Py.strip s) = true -> trimmed (Py.strip s).
Proof.
  intros Ht. apply truthy_true in Ht. split; [exact Ht|]. unfold Py.strip in *.
  split; [|apply rstrip_idem].
  destruct (lstrip_head s) as [E|(c & r & E & Hc)]; rewrite E in *; [reflexivity|].
  destruct (rstrip_head c r Hc) as [r' ->]. simpl. now rewrite Hc.
Qed.

Lemma trimmed_head s :
  trimmed s -> exists c r, s = String c r /\ Py.isspace c = false.
Proof.
  intros (Hne & Hl & _). destruct s as [|c r]; [congruence|].
  exists c, r. split; [reflexivity|].
  destruct (Py.isspace c) eqn:Hc; [|reflexivity].
  simpl in Hl. rewrite Hc in Hl.
  pose proof (lstrip_length r) as Hlen. rewrite Hl in Hlen. simpl in Hlen. lia.
Qed.

Lemma rstrip_app x b :
  b <> EmptyString -> Py.rstrip b = b -> Py.rstrip (x ++ b) = x ++ b.
Proof.
  intros Hne Hb. induction x as [|c x IH]; [exact Hb|].
  rewrite app_cons. simpl. rewrite IH.
  destruct (x ++ b) eqn:E; [|reflexivity].
  destruct x; [rewrite app_nil_l in E; congruence|discriminate].
Qed.

Lemma trimmed_lines a b :
  trimmed a -> trimmed b -> trimmed (a ++ String "010" b).
Proof.
  intros Ha (Hbne & _ & Hbr).
  destruct (trimmed_head a Ha) as (c & r & -> & Hc).
  split; [rewrite app_cons; discriminate|]. split.
  - rewrite app_cons. simpl. now rewrite Hc.
  - change (String "010" b) with (String "010" EmptyString ++ b).
    rewrite <- app_assoc_s. now apply rstrip_app.
Qed.

Lemma unlines_app l1 l2 : unlines (l1 ++ l2)%list = unlines l1 ++ unlines l2.
Proof.
  induction l1 as [|p l1 IH]; [reflexivity|].
  simpl. rewrite IH, app_assoc_s. reflexivity.
Qed.

Lemma unlines_join l :
  l <> [] -> unlines l = PyStr.join (String "010" EmptyString) l ++ String "010" EmptyString.
Proof.
  induction l as [|p l IH]; [congruence|]. intros _.
  destruct l as [|q l].
  - reflexivity.
  - change (unlines (p :: q :: l)) with (p ++ String "010" (unlines (q :: l))).
    rewrite IH by discriminate.
    change (PyStr.join (String "010" "") (p :: q :: l))
      with (p ++ String "010" "" ++ PyStr.join (String "010" "") (q :: l)).
    now rewrite !app_assoc_s.
Qed.

Lemma unlines_nil l : unlines l = EmptyString -> l = [].
Proof.
  destruct l as [|p l]; [reflexivity|]. simpl.
  destruct p; [rewrite app_nil_l|rewrite app_cons]; discriminate.
Qed.

Lemma unlines_eq_join l1 l2 :
  unlines l1 = unlines l2 ->
  PyStr.join (String "010" EmptyString) l1 = PyStr.join (String "010" EmptyString) l2.
Proof.
  intros H. destruct l1 as [|p l1].
  - symmetry in H. apply unlines_nil in H. now subst.
  - destruct l2 as [|q l2]; [apply unlines_nil in H; discriminate|].
    rewrite !unlines_join in H by discriminate. now apply app_inv_tail_nl.
Qed.

Lemma split_on_all_space sep s :
  all_space s = true ->
  Forall (fun p => all_space p = true) (PyStr.split_on sep s).
Proof.
  induction s as [|c s IH]; simpl; intros H; [now repeat constructor|].
  apply andb_prop in H as [Hc Hs]. specialize (IH Hs).
  destruct (Ascii.eqb c sep); [now constructor|].
  destruct (PyStr.split_on sep s) as [|p ps]; [now repeat constructor; simpl; rewrite Hc|].
  inversion IH; subst. constructor; [simpl; now rewrite Hc|assumption].
Qed.

Lemma stripped_lines_trimmed text : Forall trimmed (PdfUtils.stripped_lines text).
Proof.
  unfold PdfUtils.stripped_lines. apply Forall_forall. intros p Hp.
  apply list_elem_of_In, List.in_map_iff in Hp as (q & <- & Hq).
  apply List.filter_In in Hq as [_ Hq]. now apply strip_trimmed.
Qed.

Lemma stripped_lines_blank text :
  all_space text = true -> PdfUtils.stripped_lines text = [].
Proof.
  intros H. unfold PdfUtils.stripped_lines.
  pose proof (split_on_all_space "010" text H) as Hall.
  induction Hall as [|p ps Hp _ IH]; [reflexivity|].
  simpl. now rewrite (strip_all_space p Hp).
Qed.

Lemma unlines_snoc l x :
  unlines (l ++ [x])%list = unlines l ++ (x ++ String "010" EmptyString).
Proof. now rewrite unlines_app. Qed.

Lemma line_feed_middle (a b : string) :
  a ++ String "010" b = (a ++ String "010" EmptyString) ++ b.
Proof. now rewrite app_assoc_s. Qed.

Section SegmentTextLines.

Variable max_chunk_chars : Z.

(** The chunks written so far and the pending one hold the lines read
    so far. *)
Let holds (processed : list string) (state : option (list string * string)) : Prop :=
  exists chunks current,
    state = Some (chunks, current)
    /\ (current = EmptyString \/ trimmed current)
    /\ unlines chunks
       ++ (if Py.truthy current then current ++ String "010" EmptyString
           else EmptyString)
       = unlines processed.

Lemma flush_current chunks current :
  current = EmptyString \/ trimmed current ->
  unlines (if Py.truthy current then (chunks ++ [Py.strip current])%list else chunks)
  = unlines chunks
    ++ (if Py.truthy current then current ++ String "010" EmptyString
        else EmptyString).
Proof.
  intros [->|Ht]; [simpl; now rewrite app_nil_r|].
  rewrite (trimmed_strip _ Ht). destruct Ht as (Hne & _).
  apply truthy_true in Hne. rewrite Hne. apply unlines_snoc.
Qed.

Lemma segment_step_lines processed state p :
  trimmed p -> Py.len p <= max_chunk_chars ->
  holds processed state ->
  holds (processed ++ [p])%list (PdfUtils.segment_step max_chunk_chars state p).
Proof.
  intros Hp Hlen (chunks & current & -> & Hcur & Hinv).
  assert (Py.truthy p = true) as Htp by (apply truthy_true; apply Hp).
  unfold PdfUtils.segment_step. simpl.
  destruct (Z.leb_spec (Py.len current + Py.len p + 1) max_chunk_chars) as [Hfit|Hno].
  - eexists _, _. split; [reflexivity|]. rewrite unlines_snoc, <- Hinv.
    destruct Hcur as [->|Hc].
    + simpl. split; [now right|]. now rewrite Htp, app_nil_r.
    + pose proof Hc as (Hne & _). apply truthy_true in Hne. rewrite Hne.
      split; [right; now apply trimmed_lines|].
      assert (Py.truthy (current ++ String "010" p) = true) as ->.
      { destruct current; [discriminate Hne|reflexivity]. }
      now rewrite (line_feed_middle current p), !app_assoc_s.
  - destruct (Z.ltb_spec max_chunk_chars (Py.len p)) as [Hlong|_]; [lia|].
    eexists _, _. split; [reflexivity|]. split; [now right|].
    rewrite Htp, (flush_current chunks current Hcur), unlines_snoc, <- Hinv.
    reflexivity.
Qed.

Lemma segment_loop_lines ps : forall processed state,
  Forall trimmed ps -> Forall (fun p => Py.len p <= max_chunk_chars) ps ->
  holds processed state ->
  holds (processed ++ ps)%list
        (fold_left (PdfUtils.segment_step max_chunk_chars) ps state).
Proof.
  induction ps as [|p ps IH]; intros processed state Ht Hl Hst; simpl.
  - now rewrite List.app_nil_r.
  - apply Forall_cons in Ht as [Hp Ht]. apply Forall_cons in Hl as [Hpl Hl].
    replace (processed ++ p :: ps)%list with ((processed ++ [p]) ++ ps)%list
      by now rewrite <- List.app_assoc.
    apply IH; [exact Ht|exact Hl|]. now apply segment_step_lines.
Qed.

(** X23. When no stripped line is longer than the limit, [segment_text]
    returns chunks that, joined by line feeds, are the non-blank lines
    of the text, stripped and joined by line feeds: lines are grouped,
    none is lost, cut or reordered. *)
Theorem segment_text_keeps_lines text :
  Forall (fun p => Py.len p <= max_chunk_chars) (PdfUtils.stripped_lines text) ->
  exists chunks,
    PdfUtils.segment_text text max_chunk_chars = Some chunks
    /\ PyStr.join (String "010" EmptyString) chunks
       = PyStr.join (String "010" EmptyString) (PdfUtils.stripped_lines text).
Proof.
  intros Hshort. unfold PdfUtils.segment_text.
  destruct (segment_loop_lines (PdfUtils.stripped_lines text) []
              (Some ([], EmptyString)) (stripped_lines_trimmed text) Hshort)
    as (chunks & current & Heq & Hcur & Hinv).
  { exists [], EmptyString. split; [reflexivity|]. split; [now left|reflexivity]. }
  simpl in Heq. rewrite Heq. simpl. eexists. split; [reflexivity|].
  apply unlines_eq_join. rewrite flush_current by exact Hcur. exact Hinv.
Qed.

(** X24. Every chunk that [segment_text] returns is stripped: it neither
    starts nor ends with whitespace. *)
Theorem segment_text_chunks_stripped text chunks :
  PdfUtils.segment_text text max_chunk_chars = Some chunks ->
  Forall (fun c => Py.strip c = c) chunks.
Proof.
  unfold PdfUtils.segment_text.
  assert (forall ps state chunks0 current0,
            fold_left (PdfUtils.segment_step max_chunk_chars) ps state
              = Some (chunks0, current0) ->
            (forall c cur, state = Some (c, cur) -> Forall (fun c => Py.strip c = c) c) ->
            Forall (fun c => Py.strip c = c) chunks0) as Hloop.
  { induction ps as [|p ps IH]; intros state chunks0 current0; simpl.
    - intros -> H. now apply (H chunks0 current0).
    - intros Hfold Hst. apply (IH _ _ _ Hfold). clear Hfold IH.
      intros c cur. destruct state as [[chunks1 current1]|]; [|discriminate].
      specialize (Hst _ _ eq_refl). unfold PdfUtils.segment_step. simpl.
      assert (Forall (fun c => Py.strip c = c)
                (if Py.truthy current1 then (chunks1 ++ [Py.strip current1])%list
                 else chunks1)) as Hflush.
      { destruct (Py.truthy current1); [|exact Hst].
        apply Forall_app. split; [exact Hst|].
        constructor; [apply strip_idem|constructor]. }
      destruct (_ <=? _); [now intros [= <- _]|].
      destruct (_ <? _); [|now intros [= <- _]].
      unfold PdfUtils.long_pieces.
      destruct (PyStr.range0 _ _) as [l|]; [|discriminate]. simpl.
      intros [= <- _]. apply Forall_app. split; [exact Hflush|].
      apply Forall_forall. intros x Hx.
      apply list_elem_of_In, List.in_map_iff in Hx as (i & <- & _). apply strip_idem. }
  destruct (fold_left _ _ _) as [[chunks0 current0]|] eqn:Hfold; [|discriminate].
  simpl. intros [= <-].
  assert (Forall (fun c => Py.strip c = c) chunks0) as H0.
  { apply (Hloop _ _ _ _ Hfold). intros c cur [= <- _]. constructor. }
  destruct (Py.truthy current0); [|exact H0].
  apply Forall_app. split; [exact H0|]. constructor; [apply strip_idem|constructor].
Qed.

(** X25. A text of whitespace only (the empty text too) has no chunk,
    whatever the limit. *)
Theorem segment_text_blank text :
  all_space text = true -> PdfUtils.segment_text text max_chunk_chars = Some [].
Proof.
  intros H. unfold PdfUtils.segment_text. now rewrite stripped_lines_blank.
Qed.

End SegmentTextLines.

(* ================================================================== *)
(** ** [pdf_utils.sanitize_text]: the whitespace normalisation *)

Lemma push_word_app w ws l :
  (PyStr.push_word w ws ++ l)%list = PyStr.push_word w (ws ++ l)%list.
Proof. now destruct w. Qed.

Lemma split_ws_cons_space c s :
  Py.isspace c = true -> PyStr.split_ws (String c s) = PyStr.split_ws s.
Proof.
  intros Hc. unfold PyStr.split_ws. simpl.
  destruct (PyStr.split_ws_from s) as [w ws]. now rewrite Hc.
Qed.

Lemma split_ws_from_app_space a c b :
  Py.isspace c = true ->
  PyStr.split_ws_from (a ++ String c b)
  = (fst (PyStr.split_ws_from a),
     (snd (PyStr.split_ws_from a) ++ PyStr.split_ws b)%list).
Proof.
  intros Hc. induction a as [|x a IH].
  - rewrite app_nil_l. unfold PyStr.split_ws. simpl.
    destruct (PyStr.split_ws_from b) as [w ws]. now rewrite Hc.
  - rewrite app_cons. simpl. rewrite IH.
    destruct (PyStr.split_ws_from a) as [w ws]. simpl.
    destruct (Py.isspace x); [|reflexivity]. simpl. now rewrite push_word_app.
Qed.

(** The words on both sides of a whitespace character. *)
Lemma split_ws_app_space a c b :
  Py.isspace c = true ->
  PyStr.split_ws (a ++ String c b) = (PyStr.split_ws a ++ PyStr.split_ws b)%list.
Proof.
  intros Hc. unfold PyStr.split_ws at 1 2. rewrite split_ws_from_app_space by exact Hc.
  destruct (PyStr.split_ws_from a) as [w ws]. simpl. now rewrite push_word_app.
Qed.

Lemma split_ws_all_space_app sep b :
  all_space sep = true -> PyStr.split_ws (sep ++ b) = PyStr.split_ws b.
Proof.
  induction sep as [|c sep IH]; [reflexivity|]. simpl. intros H.
  apply andb_prop in H as [Hc Hs]. rewrite app_cons, split_ws_cons_space by exact Hc.
  now apply IH.
Qed.

Lemma split_ws_lstrip s : PyStr.split_ws (Py.lstrip s) = PyStr.split_ws s.
Proof.
  induction s as [|c s IH]; [reflexivity|]. simpl.
  destruct (Py.isspace c) eqn:Hc; [|reflexivity].
  now rewrite IH, split_ws_cons_space.
Qed.

Lemma split_ws_from_rstrip s :
  PyStr.split_ws_from (Py.rstrip s) = PyStr.split_ws_from s.
Proof.
  induction s as [|c s IH]; [reflexivity|]. simpl.
  destruct (Py.rstrip s) as [|a r] eqn:E.
  - rewrite <- IH. simpl. destruct (Py.isspace c) eqn:Hc; simpl; [reflexivity|].
    now rewrite Hc.
  - rewrite <- IH.
    change (PyStr.split_ws_from (String c (String a r)))
      with (let '(w, ws) := PyStr.split_ws_from (String a r) in
            if Py.isspace c then (EmptyString, PyStr.push_word w ws)
            else (String c w, ws)).
    reflexivity.
Qed.

Lemma split_ws_strip s : PyStr.split_ws (Py.strip s) = PyStr.split_ws s.
Proof.
  unfold Py.strip. transitivity (PyStr.split_ws (Py.lstrip s));
    [|apply split_ws_lstrip].
  unfold PyStr.split_ws. now rewrite split_ws_from_rstrip.
Qed.

Lemma split_ws_blank s :
  Py.truthy (Py.strip s) = false -> PyStr.split_ws s = [].
Proof.
  intros H. rewrite <- split_ws_strip. now destruct (Py.strip s).
Qed.

(** The words of pieces joined by a separator of whitespace. *)
Lemma split_ws_join sep l :
  sep <> EmptyString -> all_space sep = true ->
  PyStr.split_ws (PyStr.join sep l) = concat (map PyStr.split_ws l).
Proof.
  intros Hne Hsp. destruct sep as [|c sep]; [congruence|]. simpl in Hsp.
  apply andb_prop in Hsp as [Hc Hsp].
  induction l as [|p l IH]; [reflexivity|].
  destruct l as [|q l]; [simpl; now rewrite List.app_nil_r|].
  change (PyStr.join (String c sep) (p :: q :: l))
    with (p ++ String c sep ++ PyStr.join (String c sep) (q :: l)).
  rewrite app_cons, split_ws_app_space by exact Hc.
  rewrite split_ws_all_space_app by exact Hsp. now rewrite IH.
Qed.

Lemma join_split_on sep s :
  PyStr.join (String sep EmptyString) (PyStr.split_on sep s) = s.
Proof.
  induction s as [|c s IH]; [reflexivity|]. simpl.
  destruct (Ascii.eqb_spec c sep) as [->|Hne].
  - destruct (PyStr.split_on sep s) as [|p ps] eqn:E; [destruct s; simpl in E;
      [discriminate|destruct (Ascii.eqb _ _), (PyStr.split_on sep s); discriminate]|].
    change (PyStr.join (String sep "") ("" :: p :: ps))
      with (EmptyString ++ String sep "" ++ PyStr.join (String sep "") (p :: ps)).
    now rewrite IH.
  - destruct (PyStr.split_on sep s) as [|p ps] eqn:E.
    + destruct s; simpl in E;
        [discriminate|destruct (Ascii.eqb _ _), (PyStr.split_on sep s); discriminate].
    + destruct ps as [|q ps]; [simpl in *; now rewrite IH|].
      change (PyStr.join (String sep "") (String c p :: q :: ps))
        with (String c (p ++ String sep "" ++ PyStr.join (String sep "") (q :: ps))).
      f_equal. exact IH.
Qed.

Lemma split_ws_lines s :
  PyStr.split_ws s = concat (map PyStr.split_ws (PyStr.split_on "010" s)).
Proof.
  rewrite <- (join_split_on "010" s) at 1.
  now apply split_ws_join.
Qed.

Lemma split_ws_stripped_lines s :
  concat (map PyStr.split_ws (PdfUtils.stripped_lines s)) = PyStr.split_ws s.
Proof.
  rewrite split_ws_lines. unfold PdfUtils.stripped_lines.
  induction (PyStr.split_on "010" s) as [|p ps IH]; [reflexivity|]. simpl.
  destruct (Py.truthy (Py.strip p)) eqn:Hp; simpl.
  - now rewrite split_ws_strip, IH.
  - now rewrite (split_ws_blank p Hp), IH.
Qed.

Lemma prefix_one a c r :
  String.prefix (String a EmptyString) (String c r) = true -> c = a.
Proof. simpl. destruct (Ascii.ascii_dec a c); congruence. Qed.

Lemma prefix_two a b s :
  String.prefix (String a (String b EmptyString)) s = true ->
  exists r, s = String a (String b r).
Proof.
  destruct s as [|c [|d r]]; simpl; try discriminate.
  - destruct (Ascii.ascii_dec a c); discriminate.
  - destruct (Ascii.ascii_dec a c); [|discriminate].
    destruct (Ascii.ascii_dec b d); [|discriminate]. subst. eauto.
Qed.

(** A carriage return turned into a line feed: the words stay. *)
Lemma split_ws_from_replace_cr s :
  PyStr.split_ws_from (Py.replace s (String "013" EmptyString) (String "010" EmptyString))
  = PyStr.split_ws_from s.
Proof.
  unfold Py.replace. induction s as [|c s IH]; [reflexivity|].
  cbn [Py.replace_from].
  destruct (String.prefix _ (String c s)) eqn:E.
  - apply prefix_one in E as ->. cbn [String.length Nat.sub].
    rewrite app_cons, app_nil_l. simpl. now rewrite IH.
  - simpl. now rewrite IH.
Qed.

(** A carriage return and line feed turned into a line feed. *)
Lemma split_ws_from_replace_crlf n : forall s,
  (String.length s <= n)%nat ->
  PyStr.split_ws_from
    (Py.replace_from (String "013" (String "010" EmptyString))
       (String "010" EmptyString) 0 s)
  = PyStr.split_ws_from s.
Proof.
  induction n as [|n IH]; intros s Hn.
  - destruct s; [reflexivity|simpl in Hn; lia].
  - destruct s as [|c s]; [reflexivity|]. cbn [Py.replace_from].
    destruct (String.prefix _ (String c s)) eqn:E.
    + apply prefix_two in E as (r & [= -> ->]). cbn [String.length Nat.sub].
      rewrite app_cons, app_nil_l. cbn [Py.replace_from].
      destruct n as [|n]; [simpl in Hn; lia|].
      assert (PyStr.split_ws_from
                (Py.replace_from (String "013" (String "010" "")) (String "010" "") 0 r)
              = PyStr.split_ws_from r) as Hr.
      { clear -IH Hn. simpl in Hn.
        assert (forall m s, (String.length s <= m)%nat -> (m <= S n)%nat ->
                  PyStr.split_ws_from
                    (Py.replace_from (String "013" (String "010" ""))
                       (String "010" "") 0 s) = PyStr.split_ws_from s) as Hm.
        { intros m s0 Hs Hle. apply IH. lia. }
        apply (Hm n); lia. }
      simpl. rewrite Hr. destruct (PyStr.split_ws_from r) as [w ws].
      now destruct w.
    + simpl. rewrite IH by (simpl in Hn; lia). reflexivity.
Qed.

Lemma split_ws_replace_newlines s :
  PyStr.split_ws
    (Py.replace (Py.replace s (String "013" (String "010" EmptyString))
                   (String "010" EmptyString))
                (String "013" EmptyString) (String "010" EmptyString))
  = PyStr.split_ws s.
Proof.
  unfold PyStr.split_ws. rewrite split_ws_from_replace_cr.
  unfold Py.replace at 1.
  now rewrite (split_ws_from_replace_crlf (String.length s) s).
Qed.

Lemma normalize_split_join text :
  PdfUtils.normalize text = PyStr.join " " (PyStr.split_ws text).
Proof.
  unfold PdfUtils.normalize. cbv zeta. f_equal.
  rewrite split_ws_join by (discriminate || reflexivity).
  now rewrite split_ws_stripped_lines, split_ws_replace_newlines.
Qed.

Lemma split_ws_from_word w :
  no_space w = true -> PyStr.split_ws_from w = (w, []).
Proof.
  induction w as [|c w IH]; [reflexivity|]. simpl. intros H.
  apply andb_prop in H as [Hc Hw]. rewrite (IH Hw).
  apply negb_true_iff in Hc. now rewrite Hc.
Qed.

Lemma split_ws_from_words s :
  no_space (fst (PyStr.split_ws_from s)) = true
  /\ Forall (fun w => w <> EmptyString /\ no_space w = true)
            (snd (PyStr.split_ws_from s)).
Proof.
  induction s as [|c s [IHw IHws]]; [split; [reflexivity|constructor]|].
  simpl. destruct (PyStr.split_ws_from s) as [w ws]. simpl in *.
  destruct (Py.isspace c) eqn:Hc; simpl.
  - split; [reflexivity|]. destruct w; [exact IHws|].
    constructor; [split; [discriminate|exact IHw]|exact IHws].
  - rewrite Hc. simpl. now split.
Qed.

(** The words that [split()] returns are non-empty and free of
    whitespace. *)
Lemma split_ws_words s :
  Forall (fun w => w <> EmptyString /\ no_space w = true) (PyStr.split_ws s).
Proof.
  unfold PyStr.split_ws. destruct (split_ws_from_words s) as [Hw Hws].
  destruct (PyStr.split_ws_from s) as [w ws]. simpl in *.
  destruct w; [exact Hws|]. constructor; [split; [discriminate|exact Hw]|exact Hws].
Qed.

Lemma split_ws_join_words ws :
  Forall (fun w => w <> EmptyString /\ no_space w = true) ws ->
  PyStr.split_ws (PyStr.join " " ws) = ws.
Proof.
  intros H. rewrite split_ws_join by (discriminate || reflexivity).
  induction H as [|w ws [Hne Hw] _ IH]; [reflexivity|]. simpl.
  unfold PyStr.split_ws at 1. rewrite (split_ws_from_word w Hw).
  destruct w; [congruence|]. simpl. now rewrite IH.
Qed.

Section SanitizeText.

Context {Embedding : Type}.
Variable cos_sim : Embedding -> Embedding -> Q.
Variable presidio : option AnalyzerEngine.
Variable model : string -> option Embedding.
Variable topic_embeddings : list Embedding.

(** X28. [sanitize_text] gives to the guardrails the words of the text
    joined by single spaces: of the line breaks and paragraphs that its
    first two statements arrange nothing is left. *)
Theorem sanitize_text_words_only text h :
  PdfUtils.sanitize_text cos_sim presidio model topic_embeddings text h
  = apply_guardrails cos_sim presidio model topic_embeddings
      (PyStr.join " " (PyStr.split_ws text)) DEFAULT_DETECTION_MODE h.
Proof. unfold PdfUtils.sanitize_text. now rewrite normalize_split_join. Qed.

(** X29. Two texts with the same words are sanitized to the same text. *)
Theorem sanitize_text_same_words text1 text2 h :
  PyStr.split_ws text1 = PyStr.split_ws text2 ->
  PdfUtils.sanitize_text cos_sim presidio model topic_embeddings text1 h
  = PdfUtils.sanitize_text cos_sim presidio model topic_embeddings text2 h.
Proof.
  intros H. unfold PdfUtils.sanitize_text. now rewrite !normalize_split_join, H.
Qed.

End SanitizeText.

(** X30. The normalisation of [sanitize_text] keeps the words of the text,
    in their order, and leaves a normalised text as it is. *)
Theorem normalize_keeps_words text :
  PyStr.split_ws (PdfUtils.normalize text) = PyStr.split_ws text
  /\ PdfUtils.normalize (PdfUtils.normalize text) = PdfUtils.normalize text.
Proof.
  assert (PyStr.split_ws (PdfUtils.normalize text) = PyStr.split_ws text) as Hw.
  { rewrite normalize_split_join. apply split_ws_join_words, split_ws_words. }
  split; [exact Hw|].
  rewrite (normalize_split_join (PdfUtils.normalize text)), Hw.
  symmetry. apply normalize_split_join.
Qed.

Lemma segment_loop_raised max_chunk_chars ps :
  fold_left (PdfUtils.segment_step max_chunk_chars) ps None = None.
Proof. induction ps as [|p ps IH]; [reflexivity|exact IH]. Qed.

Lemma trimmed_len_pos p : trimmed p -> 0 < Py.len p.
Proof.
  intros (Hne & _). destruct p; [congruence|]. unfold Py.len. simpl. lia.
Qed.

(** X26. With a limit of zero [segment_text] raises ([range] refuses a zero
    step) as soon as the text has a line that is not blank. *)
Theorem segment_text_zero_limit_raises text :
  PdfUtils.stripped_lines text <> [] ->
  PdfUtils.segment_text text 0 = None.
Proof.
  intros Hne. unfold PdfUtils.segment_text.
  pose proof (stripped_lines_trimmed text) as Ht.
  destruct (PdfUtils.stripped_lines text) as [|p ps]; [congruence|].
  apply Forall_cons in Ht as [Hp _]. apply trimmed_len_pos in Hp.
  cbn [fold_left].
  assert (PdfUtils.segment_step 0 (Some ([], EmptyString)) p = None) as ->.
  { unfold PdfUtils.segment_step. simpl.
    change (Py.len EmptyString) with 0.
    destruct (Z.leb_spec (0 + Py.len p + 1) 0); [lia|].
    destruct (Z.ltb_spec 0 (Py.len p)); [|lia]. reflexivity. }
  now rewrite segment_loop_raised.
Qed.

(** X27. With a negative limit [segment_text] returns no chunk at all: every
    line is taken for a long paragraph and cut over an empty range. *)
Theorem segment_text_negative_limit_empty text max_chunk_chars :
  max_chunk_chars < 0 ->
  PdfUtils.segment_text text max_chunk_chars = Some [].
Proof.
  intros Hneg. unfold PdfUtils.segment_text.
  assert (forall ps,
            fold_left (PdfUtils.segment_step max_chunk_chars) ps
              (Some ([], EmptyString)) = Some ([], EmptyString)) as ->;
    [|reflexivity].
  induction ps as [|p ps IH]; [reflexivity|]. cbn [fold_left].
  assert (PdfUtils.segment_step max_chunk_chars (Some ([], EmptyString)) p
          = Some ([], EmptyString)) as ->; [|exact IH].
  unfold PdfUtils.segment_step. simpl. change (Py.len EmptyString) with 0.
  assert (0 <= Py.len p) by (unfold Py.len; lia).
  destruct (Z.leb_spec (0 + Py.len p + 1) max_chunk_chars); [lia|].
  destruct (Z.ltb_spec max_chunk_chars (Py.len p)); [|lia].
  unfold PdfUtils.long_pieces, PyStr.range0.
  destruct (Z.eqb_spec max_chunk_chars 0); [lia|].
  destruct (Z.ltb_spec 0 max_chunk_chars); [lia|].
  destruct (Z.ltb_spec (Py.len p) 0); [lia|]. reflexivity.
Qed.

(* ================================================================== *)
(** ** More on the detector *)

(** [argmax_from] returns the position of the running maximum, the
    first one among equal entries. *)
Lemma argmax_from_first l : forall (pre : list Q) bi best,
  nth_error pre bi = Some best ->
  (forall j x, (j < bi)%nat -> nth_error pre j = Some x -> (x < best)%Q) ->
  (forall x, In x pre -> (x <= best)%Q) ->
  nth_error (pre ++ l)%list (argmax_from (List.length pre) bi best l)
    = Some (max_from best l)
  /\ (forall j x, (j < argmax_from (List.length pre) bi best l)%nat ->
                  nth_error (pre ++ l)%list j = Some x ->
                  (x < max_from best l)%Q).
Proof.
  induction l as [|y l IH]; intros pre bi best Hbi Hlt Hle.
  - simpl. rewrite List.app_nil_r. split; [exact Hbi|exact Hlt].
  - cbn [argmax_from max_from].
    assert (bi < List.length pre)%nat as Hin
      by (apply List.nth_error_Some; congruence).
    replace (pre ++ y :: l)%list with ((pre ++ [y]) ++ l)%list
      by now rewrite <- List.app_assoc.
    replace (S (List.length pre)) with (List.length (pre ++ [y])%list)
      by (rewrite List.length_app; simpl; lia).
    destruct (Py.gt y best) eqn:E.
    + apply py_gt_iff in E. apply IH.
      * rewrite List.nth_error_app2, Nat.sub_diag by lia. reflexivity.
      * intros j x Hj Hx. rewrite List.nth_error_app1 in Hx by lia.
        apply List.nth_error_In in Hx. specialize (Hle x Hx). lra.
      * intros x Hx. apply List.in_app_iff in Hx as [Hx|[<-|[]]]; [|lra].
        specialize (Hle x Hx). lra.
    + assert (y <= best)%Q as Hy.
      { apply Qnot_lt_le. intros H. apply py_gt_iff in H. congruence. }
      apply IH.
      * rewrite List.nth_error_app1 by lia. exact Hbi.
      * intros j x Hj Hx. rewrite List.nth_error_app1 in Hx by lia. eauto.
      * intros x Hx. apply List.in_app_iff in Hx as [Hx|[<-|[]]]; auto.
Qed.

Section MatchedTopic.

Context {Embedding : Type}.
Variable cos_sim : Embedding -> Embedding -> Q.
Variable self : AdvancedPIIDetector Embedding.

(** X1. On a detection the matched topic is a configured topic: the one
    whose embedding has the largest cosine with the text (no cosine of
    a topic embedding is above the one reported), and the first such
    topic when several cosines are equal (every cosine before it is
    strictly below). *)
Theorem detected_topic_is_first_best text :
  let m := detect_semantic_pii cos_sim self text in
  detected m = true ->
  exists e idx topic,
    semantic_model self text = Some e
    /\ matched_topic m = Some topic
    /\ nth_error (sensitive_topics (config self)) idx = Some topic
    /\ nth_error (map (cos_sim e) (sensitive_embeddings self)) idx
       = Some (similarity m)
    /\ Forall (fun s => (s <= similarity m)%Q)
              (map (cos_sim e) (sensitive_embeddings self))
    /\ (forall j s, (j < idx)%nat ->
          nth_error (map (cos_sim e) (sensitive_embeddings self)) j = Some s ->
          (s < similarity m)%Q).
Proof.
  unfold detect_semantic_pii.
  destruct (semantic_model self text) as [e|]; [|discriminate].
  destruct (map (cos_sim e) (sensitive_embeddings self)) as [|s0 sims] eqn:Hs;
    [discriminate|].
  destruct (Py.gt _ _); [|discriminate].
  destruct (nth_error (sensitive_topics (config self)) _) as [topic|] eqn:Ht;
    [|discriminate].
  intros _. exists e, (argmax_from 1 0 s0 sims), topic. cbn [matched_topic similarity].
  destruct (argmax_from_first sims [s0] 0%nat s0) as [Hat Hbefore].
  - reflexivity.
  - intros j x Hj. lia.
  - intros x [<-|[]]. lra.
  - split; [reflexivity|]. split; [reflexivity|]. split; [exact Ht|].
    rewrite Hs. split; [exact Hat|]. split; [|exact Hbefore].
    destruct (max_from_upper s0 sims) as [H0 Hrest]. now constructor.
Qed.

End MatchedTopic.

Section RiskMore.

Context {Embedding : Type}.
Variable self : AdvancedPIIDetector Embedding.

Lemma high_risk_count_perm l l' :
  Permutation l l' -> high_risk_count self l = high_risk_count self l'.
Proof.
  intros H. unfold high_risk_count.
  induction H as [|x l l' _ IH|x y l|l l' l'' _ IH1 _ IH2]; simpl.
  - reflexivity.
  - destruct (is_high_risk self x); simpl; now rewrite IH.
  - now destruct (is_high_risk self x), (is_high_risk self y).
  - now rewrite IH1.
Qed.

(** X2. The score depends on the findings, not on their order: two lists
    with the same findings get the same score. *)
Theorem risk_order_independent l l' semantic :
  Permutation l l' ->
  (_calculate_risk self l semantic == _calculate_risk self l' semantic)%Q.
Proof.
  intros H. rewrite !calculate_risk_loop.
  now rewrite (Permutation_length H), (high_risk_count_perm l l' H).
Qed.

(** X3. Two findings of which one is of a high-risk type are enough for the
    highest score. *)
Theorem risk_saturates detections semantic :
  semantic_wf semantic ->
  (2 <= List.length detections)%nat ->
  (1 <= high_risk_count self detections)%nat ->
  (_calculate_risk self detections semantic == 1)%Q.
Proof.
  intros Hwf Hn Hk. rewrite calculate_risk_loop.
  assert (2 <= inject_Z (Z.of_nat (List.length detections)))%Q as Hn'
    by (change 2%Q with (inject_Z 2); rewrite <- Zle_Qle; lia).
  assert (1 <= inject_Z (Z.of_nat (high_risk_count self detections)))%Q as Hk'
    by (change 1%Q with (inject_Z 1); rewrite <- Zle_Qle; lia).
  unfold semantic_wf in Hwf.
  transitivity 1.0%Q; [|reflexivity].
  apply Q.min_r.
  destruct (detected semantic); [specialize (Hwf eq_refl)|]; lra.
Qed.

End RiskMore.

Section ReportScore.

Context {Embedding : Type}.
Variable cos_sim : Embedding -> Embedding -> Q.
Variable presidio : option AnalyzerEngine.
Variable model : string -> option Embedding.
Variable topic_embeddings : list Embedding.

Let the_detector := detector presidio model topic_embeddings.

(** X4. Under the configuration of the module a report has score 0 when it
    contains no PII and a score of at least 0.3 when it does. *)
Theorem risk_zero_iff_clean text h :
  let a := fst (analyze_text cos_sim the_detector text h) in
  (contains_pii a = false -> risk_score a == 0)%Q
  /\ (contains_pii a = true -> 0.3 <= risk_score a)%Q.
Proof.
  rewrite analyze_text_eq. cbn [fst contains_pii risk_score].
  pose proof (detect_semantic_pii_wf cos_sim the_detector text) as Hwf.
  pose proof (detected_above_threshold cos_sim the_detector text) as Habove.
  cbv zeta in Habove. unfold semantic_wf in Hwf.
  change (semantic_similarity (thresholds (config the_detector))) with 0.75%Q in *.
  specialize (Hwf ltac:(lra)).
  rewrite calculate_risk_loop.
  set (k := inject_Z (Z.of_nat (high_risk_count the_detector
                                  (detect_pii_with_presidio the_detector text)))).
  assert (0 <= k)%Q as Hk
    by (subst k; change 0%Q with (inject_Z 0); rewrite <- Zle_Qle; lia).
  assert (k <= inject_Z (Z.of_nat (List.length
                   (detect_pii_with_presidio the_detector text))))%Q as Hkn.
  { subst k. rewrite <- Zle_Qle. apply inj_le. unfold high_risk_count.
    apply List.filter_length_le. }
  destruct (detect_pii_with_presidio the_detector text) as [|d l] eqn:Hd.
  - cbn [List.length] in *. change (inject_Z (Z.of_nat 0)) with 0%Q in *.
    split; intros Hc; rewrite Hc in *.
    + rewrite Q.min_l by lra. lra.
    + specialize (Habove eq_refl). apply Q.min_glb; lra.
  - split; [discriminate|]. intros _.
    assert (1 <= inject_Z (Z.of_nat (List.length (d :: l))))%Q as Hn
      by (change 1%Q with (inject_Z 1); rewrite <- Zle_Qle; simpl; lia).
    apply Q.min_glb; [|lra].
    destruct (detected (detect_semantic_pii cos_sim the_detector text));
      [specialize (Hwf eq_refl)|]; lra.
Qed.

End ReportScore.

(* ================================================================== *)
(** ** More on redaction *)

Lemma prefix_app n b : String.prefix n (n ++ b) = true.
Proof.
  induction n as [|c n IH]; [now destruct b|].
  rewrite app_cons. simpl. now destruct (Ascii.ascii_dec c c).
Qed.

Lemma contains_prefix n s : String.prefix n s = true -> Py.contains n s = true.
Proof. intros H. destruct s; cbn [Py.contains]; now rewrite H. Qed.

Lemma contains_app_r n a b : Py.contains n b = true -> Py.contains n (a ++ b) = true.
Proof.
  intros H. induction a as [|c a IH]; [exact H|].
  rewrite app_cons. simpl. rewrite IH. apply orb_true_r.
Qed.

(** A string put between two others occurs in the whole. *)
Lemma contains_middle n a b : Py.contains n (a ++ n ++ b) = true.
Proof. apply contains_app_r, contains_prefix, prefix_app. Qed.

(** Replacing a word that does not occur changes nothing. *)
Lemma replace_absent s old new :
  old <> EmptyString -> Py.contains old s = false -> Py.replace s old new = s.
Proof.
  intros Hne. unfold Py.replace. destruct old as [|a old]; [congruence|].
  induction s as [|c s IH]; [reflexivity|]. intros H.
  cbn [Py.contains] in H. apply orb_false_iff in H as [Hp Hc].
  cbn [Py.replace_from]. rewrite Hp. now rewrite IH.
Qed.

Lemma contains_one_cons x c s :
  Py.contains (String x EmptyString) (String c s)
  = (if Ascii.ascii_dec x c then true else false)
    || Py.contains (String x EmptyString) s.
Proof.
  cbn [Py.contains String.prefix].
  destruct (Ascii.ascii_dec x c); [|reflexivity]. now destruct s.
Qed.

Lemma contains_one_app x a b :
  Py.contains (String x EmptyString) (a ++ b)
  = Py.contains (String x EmptyString) a || Py.contains (String x EmptyString) b.
Proof.
  induction a as [|c a IH].
  - rewrite app_nil_l. reflexivity.
  - rewrite app_cons, !contains_one_cons, IH. now rewrite orb_assoc.
Qed.

(** After a character is replaced by a token without it, it occurs no
    more. *)
Lemma replace_one_gone x new s :
  Py.contains (String x EmptyString) new = false ->
  Py.contains (String x EmptyString) (Py.replace s (String x EmptyString) new)
  = false.
Proof.
  intros Hnew. unfold Py.replace. induction s as [|c s IH]; [reflexivity|].
  cbn [Py.replace_from String.prefix String.length Nat.sub].
  destruct (Ascii.ascii_dec x c) as [->|Hne].
  - assert (String.prefix EmptyString s = true) as -> by now destruct s.
    now rewrite contains_one_app, Hnew, IH.
  - rewrite contains_one_cons, IH.
    now destruct (Ascii.ascii_dec x c).
Qed.

Lemma store_deref_id (h : list (list Detection)) a : store h a (deref h a) = h.
Proof.
  unfold store, deref. destruct (h !! a) as [l|] eqn:E; simpl.
  - now apply list_insert_id.
  - apply list_insert_ge. now apply lookup_ge_None.
Qed.

Lemma sorted_last_least l d :
  StronglySorted start_ge (l ++ [d])%list ->
  forall x, In x (l ++ [d])%list -> start d <= start x.
Proof.
  induction l as [|y l IH]; intros Hs x Hx.
  - destruct Hx as [<-|[]]. lia.
  - simpl in Hs. apply StronglySorted_inv in Hs as [Hs Hy].
    destruct Hx as [<-|Hx]; [|now apply IH].
    rewrite Forall_forall in Hy. apply (Hy d).
    apply list_elem_of_In, List.in_app_iff. right. now left.
Qed.

Section RedactMore.

Context {Embedding : Type}.
Variable self : AdvancedPIIDetector Embedding.

(** X9. A second redaction with the same report leaves the report as the
    first one left it. *)
Theorem redact_pii_again_keeps_report text text' analysis h :
  let h1 := snd (redact_pii self text analysis h) in
  snd (redact_pii self text' analysis h1) = h1.
Proof.
  intros h1. subst h1. rewrite !redact_pii_eq. cbn [snd].
  rewrite deref_store_sort.
  rewrite (sort_desc_fixpoint (sort_desc _)) by apply sort_desc_sorted.
  rewrite <- (deref_store_sort h (presidio_detections analysis)) at 2.
  apply store_deref_id.
Qed.

(** X10. Without a topic detection, the text before the leftmost finding is
    the same after redaction, when every finding starts inside the
    text. *)
Theorem redact_pii_keeps_text_before_spans text analysis h e :
  detected (semantic_detection analysis) = false ->
  0 <= e ->
  Forall (fun d => e <= start d <= Py.len text)
         (deref h (presidio_detections analysis)) ->
  Py.slice_to (fst (redact_pii self text analysis h)) e = Py.slice_to text e.
Proof.
  intros Hsem He Hin. rewrite redact_pii_eq. cbn [fst].
  unfold redact_topic. rewrite Hsem.
  apply redact_spans_keep_prefix; [apply sort_desc_sorted| |exact He].
  now rewrite sort_desc_perm.
Qed.

(** X11. Without a topic detection and with at least one finding, the
    redacted text contains the replacement token of a finding with the
    least start. *)
Theorem redact_pii_puts_token text analysis h :
  detected (semantic_detection analysis) = false ->
  deref h (presidio_detections analysis) <> [] ->
  exists d,
    In d (deref h (presidio_detections analysis))
    /\ (forall x, In x (deref h (presidio_detections analysis)) ->
                  start d <= start x)
    /\ Py.contains (token_for (redaction_patterns (config self)) (entity_type d))
                   (fst (redact_pii self text analysis h)) = true.
Proof.
  intros Hsem Hne. rewrite redact_pii_eq. cbn [fst].
  unfold redact_topic. rewrite Hsem.
  pose proof (sort_desc_perm (deref h (presidio_detections analysis))) as Hperm.
  pose proof (sort_desc_sorted (deref h (presidio_detections analysis))) as Hsorted.
  destruct (List.exists_last (l := sort_desc (deref h (presidio_detections analysis))))
    as (l & d & Hl).
  { intros E. rewrite E in Hperm. apply Permutation_nil in Hperm. congruence. }
  rewrite Hl in *. exists d. split; [|split].
  - apply (Permutation_in _ Hperm), List.in_app_iff. right. now left.
  - intros x Hx. apply (sorted_last_least l d Hsorted).
    apply (Permutation_in _ (Permutation_sym Hperm)), Hx.
  - rewrite List.fold_left_app. cbn [fold_left].
    unfold redact_span at 1. rewrite repl_of_token. apply contains_middle.
Qed.

End RedactMore.

(** X8. On a detection of a topic that reaches the PERCENTAGE branch, no
    percent sign is left in the text. *)
Theorem percent_signs_removed semantic redacted :
  detected semantic = true ->
  matched_topic semantic = Some "percentage" ->
  Py.contains "%" (redact_topic semantic redacted) = false.
Proof.
  intros Hd Ht. unfold redact_topic. rewrite Hd, Ht.
  change (Py.contains "%" (Py.replace redacted "%" "[PERCENTAGE_REDACTED]") = false).
  now apply replace_one_gone.
Qed.

(* ================================================================== *)
(** ** Batches, the embedder and the index *)

Lemma py_index_In {A} (l : list A) i x : Py.index l i = Some x -> In x l.
Proof.
  unfold Py.index.
  destruct (_ && _); [apply List.nth_error_In|].
  destruct (_ && _); [apply List.nth_error_In|discriminate].
Qed.

Section BatchFacts.

Context {Embedding Vector : Type}.
Variable cos_sim : Embedding -> Embedding -> Q.
Variable presidio : option AnalyzerEngine.
Variable model : string -> option Embedding.
Variable topic_embeddings : list Embedding.
Variable encode_batch : list string -> option (list Vector).
Variable read_pdf : string -> option (list string).
Variable index_write_failure : list Vector -> option (OnDisk (list Vector)).
Variable store_write_failure : list string -> option (OnDisk (list string)).

Let clean := sanitized cos_sim presidio model topic_embeddings.

Lemma apply_guardrails_any_heap text mode h :
  fst (apply_guardrails cos_sim presidio model topic_embeddings text mode h)
  = clean text.
Proof.
  unfold clean, sanitized. now rewrite !apply_guardrails_value.
Qed.

Lemma sanitize_each_texts texts : forall h,
  fst (sanitize_each cos_sim presidio model topic_embeddings texts h)
  = map clean texts.
Proof.
  induction texts as [|t rest IH]; intros h; [reflexivity|]. simpl.
  pose proof (apply_guardrails_any_heap t DEFAULT_DETECTION_MODE h) as Ht.
  destruct (apply_guardrails _ _ _ _ t _ h) as [s h1]. simpl in Ht. subst s.
  specialize (IH h1).
  destruct (sanitize_each _ _ _ _ rest h1) as [ss h2]. simpl in *. now rewrite IH.
Qed.

Lemma create_embeddings_value texts h :
  fst (create_embeddings cos_sim presidio model topic_embeddings encode_batch
         texts h)
  = encode_batch (map clean texts).
Proof.
  unfold create_embeddings.
  pose proof (sanitize_each_texts texts h) as H.
  destruct (sanitize_each _ _ _ _ texts h) as [safe h1]. simpl in *. now subst.
Qed.

(** X17. [embed_texts] of the embedder and [create_embeddings] of the main
    module give to the encoder the sanitized form of each text, in the
    order of the texts; how a text is sanitized does not depend on the
    other texts of the batch. *)
Theorem encoder_gets_sanitized_texts texts h :
  fst (embed_texts cos_sim presidio model topic_embeddings encode_batch texts h)
    = encode_batch (map clean texts)
  /\ fst (create_embeddings cos_sim presidio model topic_embeddings encode_batch
            texts h)
     = encode_batch (map clean texts).
Proof.
  split; [|apply create_embeddings_value].
  unfold embed_texts.
  pose proof (sanitize_each_texts texts h) as H.
  destruct (sanitize_each _ _ _ _ texts h) as [safe h1]. simpl in *. now subst.
Qed.

Lemma extract_each_texts pdf_files : forall h texts h',
  extract_each cos_sim presidio model topic_embeddings read_pdf pdf_files h
    = (Some texts, h') ->
  Forall2 (fun name t =>
             exists pages,
               read_pdf name = Some pages
               /\ t = clean (Py.strip (PyStr.join (String "010" EmptyString) pages)))
          pdf_files texts.
Proof.
  induction pdf_files as [|pdf rest IH]; intros h texts h'; simpl.
  - intros [= <- _]. constructor.
  - unfold extract_text_from_pdf.
    destruct (read_pdf pdf) as [pages|] eqn:Hread; [|discriminate].
    pose proof (apply_guardrails_any_heap
                  (Py.strip (PyStr.join (String "010" EmptyString) pages))
                  DEFAULT_DETECTION_MODE h) as Ht.
    destruct (apply_guardrails _ _ _ _ _ _ h) as [s h1]. simpl in Ht.
    destruct (extract_each _ _ _ _ _ rest h1) as [[ts|] h2] eqn:Hrest;
      [|discriminate].
    intros [= <- _]. constructor; [|now apply (IH h1 ts h2)].
    exists pages. now split.
Qed.

Let build := build_faiss_index cos_sim presidio model topic_embeddings
               encode_batch read_pdf index_write_failure store_write_failure.

Lemma build_success_inv fs h fs' h' :
  build fs h = (Some true, fs', h') ->
  exists names texts embeddings,
    resume_folder fs = Some names
    /\ text_store_file fs' = Holds texts
    /\ Forall2 (fun name t =>
                  exists pages,
                    read_pdf name = Some pages
                    /\ t = clean (Py.strip
                                    (PyStr.join (String "010" EmptyString) pages)))
               (List.filter is_pdf names) texts
    /\ encode_batch (map clean texts) = Some embeddings
    /\ faiss_index_file fs' = Holds embeddings.
Proof.
  unfold build, build_faiss_index.
  destruct (resume_folder fs) as [names|] eqn:Hfolder; [|discriminate].
  destruct (List.filter is_pdf names) as [|pdf pdfs] eqn:Hpdf; [discriminate|].
  destruct (extract_each _ _ _ _ _ (pdf :: pdfs) h) as [[texts|] h1] eqn:Hex;
    [|discriminate].
  pose proof (create_embeddings_value texts h1) as Henc.
  destruct (create_embeddings _ _ _ _ _ texts h1) as [[embeddings|] h2];
    [|discriminate].
  destruct (index_write_failure embeddings); [discriminate|].
  destruct (store_write_failure texts); [discriminate|].
  intros [= <- _]. exists names, texts, embeddings. simpl in Henc.
  split; [reflexivity|]. split; [reflexivity|]. rewrite Hpdf.
  split; [now apply (extract_each_texts _ h texts h1)|].
  split; [now symmetry|reflexivity].
Qed.

(** X18. When [build_faiss_index] returns True, both files are written
    and load: the text store holds, for each PDF of the folder in
    listing order, the sanitized form of its stripped text, and the
    index holds the vectors that the encoder gives for these texts
    sanitized once more. *)
Theorem build_faiss_index_stores_sanitized fs h fs' h' :
  build fs h = (Some true, fs', h') ->
  exists names texts embeddings,
    resume_folder fs = Some names
    /\ text_store_file fs' = Holds texts
    /\ load_store fs' = Some (Some texts)
    /\ Forall2 (fun name t =>
                  exists pages,
                    read_pdf name = Some pages
                    /\ t = clean (Py.strip
                                    (PyStr.join (String "010" EmptyString) pages)))
               (List.filter is_pdf names) texts
    /\ encode_batch (map clean texts) = Some embeddings
    /\ faiss_index_file fs' = Holds embeddings.
Proof.
  intros Hbuild.
  destruct (build_success_inv fs h fs' h' Hbuild)
    as (names & texts & embeddings & Hfolder & Hstore & Hall & Henc & Hindex).
  exists names, texts, embeddings. repeat split; try assumption.
  unfold load_store. now rewrite Hindex, Hstore.
Qed.

Lemma Forall2_In_right {A B} (P : A -> B -> Prop) l1 l2 y :
  Forall2 P l1 l2 -> In y l2 -> exists x, In x l1 /\ P x y.
Proof.
  induction 1 as [|x y' l1 l2 Hxy _ IH]; intros Hy; [destruct Hy|].
  destruct Hy as [->|Hy]; [exists x; split; [now left|exact Hxy]|].
  destruct (IH Hy) as (x' & Hx' & HP). exists x'. split; [now right|exact HP].
Qed.

(** X19. After a build that returned True, whatever the index search
    answers, a text that [search_resumes] returns from the files on
    disk is the sanitized form of the stripped text of one of the PDF
    files of the folder. *)
Theorem retrieved_text_is_sanitized_pdf fs h fs' h' index_search query h2 t h3 :
  build fs h = (Some true, fs', h') ->
  search_on_disk cos_sim presidio model topic_embeddings fs'
    index_search query h2 = (Some (Some t), h3) ->
  exists names name pages,
    resume_folder fs = Some names
    /\ In name names /\ is_pdf name = true
    /\ read_pdf name = Some pages
    /\ t = clean (Py.strip (PyStr.join (String "010" EmptyString) pages)).
Proof.
  intros Hbuild Hsearch.
  destruct (build_success_inv fs h fs' h' Hbuild)
    as (names & texts & embeddings & Hfolder & Hstore & Hall & _ & Hindex).
  unfold search_on_disk, load_store in Hsearch.
  rewrite Hindex, Hstore in Hsearch. unfold search_resumes in Hsearch.
  destruct (apply_guardrails _ _ _ _ query _ h2) as [safe_query h4].
  destruct (index_search safe_query) as [|[|i row] rows]; try discriminate.
  destruct (i =? -1); [discriminate|].
  destruct (Py.index texts i) as [t'|] eqn:Hi; [|discriminate].
  simpl in Hsearch. injection Hsearch as -> _.
  apply py_index_In in Hi.
  destruct (Forall2_In_right _ _ _ _ Hall Hi) as (name & Hname & pages & Hread & Ht).
  apply List.filter_In in Hname as [Hin Hpdf].
  exists names, name, pages. repeat split; assumption.
Qed.


(** X21. A folder that is missing or has no file whose name ends in ".pdf"
    (whatever the case of the letters) makes [build_faiss_index] return
    False without analysing any text; a missing folder is created. *)
Theorem build_faiss_index_without_pdf fs h :
  match resume_folder fs with
  | None => True
  | Some names => Forall (fun f => is_pdf f = false) names
  end ->
  exists fs',
    build_faiss_index cos_sim presidio model topic_embeddings encode_batch read_pdf
      index_write_failure store_write_failure fs h = (Some false, fs', h)
    /\ resume_folder fs' = Some (default [] (resume_folder fs)).
Proof.
  unfold build_faiss_index.
  destruct (resume_folder fs) as [names|] eqn:Hfolder; intros Hno.
  - assert (List.filter is_pdf names = []) as ->.
    { clear Hfolder. induction Hno as [|f l Hf _ IH]; [reflexivity|].
      cbn [List.filter]. now rewrite Hf. }
    exists fs. split; [reflexivity|exact Hfolder].
  - eexists. split; reflexivity.
Qed.

End BatchFacts.

(* ================================================================== *)
(** ** More on the guardrails API and the handler *)

Section ApiMore.

Context {Embedding : Type}.
Variable cos_sim : Embedding -> Embedding -> Q.
Variable presidio : option AnalyzerEngine.
Variable model : string -> option Embedding.
Variable topic_embeddings : list Embedding.

Let the_detector := detector presidio model topic_embeddings.
Let sanitize_in (text mode : string) (h : list (list Detection)) :=
  apply_guardrails cos_sim presidio model topic_embeddings text mode h.

(** X5. When Presidio is unavailable or raises on a text and the semantic
    model raises on it, [apply_guardrails] fails open: the report
    contains no PII and the text is returned as it is. *)
Theorem apply_guardrails_fails_open text mode h :
  match presidio with
  | None => True
  | Some analyze => analyze text (entities PII_DETECTION_CONFIG) "en" = None
  end ->
  model text = None ->
  contains_pii (fst (analyze_text cos_sim the_detector text h)) = false
  /\ fst (sanitize_in text mode h) = text.
Proof.
  intros Hp Hm.
  assert (detect_pii_with_presidio the_detector text = []) as Hnone.
  { unfold detect_pii_with_presidio, the_detector, detector. cbn [analyzer config].
    destruct presidio as [analyze|]; [now rewrite Hp|reflexivity]. }
  assert (detect_semantic_pii cos_sim the_detector text = semantic_failed) as Hsem.
  { unfold detect_semantic_pii, the_detector, detector. cbn [semantic_model].
    now rewrite Hm. }
  split.
  - rewrite analyze_text_eq. simpl. now rewrite Hnone, Hsem.
  - unfold sanitize_in. rewrite apply_guardrails_value. cbv zeta.
    fold the_detector. now rewrite Hnone, Hsem.
Qed.

(** X6. [apply_guardrails] changes no list that existed before the call: it
    adds one list to the heap, which holds the findings of the text. *)
Theorem apply_guardrails_frame text mode h :
  exists l,
    snd (sanitize_in text mode h) = (h ++ [l])%list
    /\ Permutation l (detect_pii_with_presidio the_detector text).
Proof.
  unfold sanitize_in, apply_guardrails. fold the_detector.
  rewrite analyze_text_eq. cbn [contains_pii].
  match goal with |- context [if ?b then _ else _] => destruct b end.
  - rewrite redact_pii_eq. cbn [snd presidio_detections].
    rewrite deref_fresh. eexists. split; [|apply sort_desc_perm].
    unfold store.
    rewrite <- (Nat.add_0_r (List.length h)). now rewrite insert_app_r.
  - eexists. split; reflexivity.
Qed.

(** X7. The topic pass looks for its words as they are written: when no
    entity is found in a text that contains none of CGPA, marks, GPA and
    the percent sign, [apply_guardrails] returns the text as it is,
    whatever topic is detected. *)
Theorem unchanged_without_literals text mode h :
  detect_pii_with_presidio the_detector text = [] ->
  Py.contains "CGPA" text = false ->
  Py.contains "marks" text = false ->
  Py.contains "GPA" text = false ->
  Py.contains "%" text = false ->
  fst (sanitize_in text mode h) = text.
Proof.
  intros Hnone Hc Hm Hg Hp. unfold sanitize_in.
  rewrite apply_guardrails_value. cbv zeta. fold the_detector. rewrite Hnone.
  destruct (detected (detect_semantic_pii cos_sim the_detector text)) eqn:Hd;
    [|reflexivity].
  cbn [sort_desc foldr fold_left]. unfold redact_topic. rewrite Hd.
  repeat match goal with |- context [if ?b then _ else _] => destruct b end;
    try reflexivity; now apply replace_absent.
Qed.

Variable re_sub : string -> string -> string -> string.
Variable index_search : string -> list (list Z).
Variable generate_content : string -> Generation.

(** X12. A text that [search_resumes] returns is one of the stored texts. *)
Theorem search_resumes_returns_stored text_store query h t h' :
  search_resumes cos_sim presidio model topic_embeddings text_store
    index_search query h = (Some (Some t), h') ->
  exists texts, text_store = Some texts /\ In t texts.
Proof.
  unfold search_resumes. destruct text_store as [texts|]; [|discriminate].
  destruct (apply_guardrails _ _ _ _ query _ h) as [safe_query h1].
  destruct (index_search safe_query) as [|[|i row] rows]; try discriminate.
  destruct (i =? -1); [discriminate|].
  destruct (Py.index texts i) as [t'|] eqn:Hi; [|discriminate].
  simpl. intros [= -> _]. exists texts. split; [reflexivity|].
  now apply py_index_In in Hi.
Qed.

(** X13. A request without a query, or with a query of whitespace only, is
    answered 400 before anything is searched or analysed. *)
Theorem query_resume_blank_query text_store data_query h :
  all_space (default "" data_query) = true ->
  query_resume cos_sim presidio model topic_embeddings re_sub text_store
    index_search generate_content data_query h
  = (Json (ErrorBody "Query is required") 400, h).
Proof.
  intros H. unfold query_resume. now rewrite (strip_all_space _ H).
Qed.

(** X14. Without the files of the index a request with a query is answered
    404, and no text is analysed. *)
Theorem query_resume_without_store data_query h :
  Py.strip (default "" data_query) <> EmptyString ->
  query_resume cos_sim presidio model topic_embeddings re_sub None
    index_search generate_content data_query h
  = (Json (ErrorBody "No relevant resume data found for your query.") 404, h).
Proof.
  intros H. unfold query_resume.
  apply truthy_true in H. rewrite H. reflexivity.
Qed.

(** X15. The error responses of the handler: 400 for a missing query, 404
    when nothing is found, 500 with the message of the exception when
    the generative model raises. *)
Theorem query_resume_error_responses text_store data_query h msg status :
  fst (query_resume cos_sim presidio model topic_embeddings re_sub text_store
         index_search generate_content data_query h)
    = Json (ErrorBody msg) status ->
  (status = 400 /\ msg = "Query is required")
  \/ (status = 404 /\ msg = "No relevant resume data found for your query.")
  \/ (status = 500
      /\ exists prompt e,
           generate_content prompt = GenerationError e
           /\ msg = "Gemini API error: " ++ e).
Proof.
  unfold query_resume.
  destruct (negb (Py.truthy _)); [intros [= <- <-]; now left|].
  destruct (search_resumes _ _ _ _ _ _ _ _) as [[matched|] h1]; [|discriminate].
  destruct (negb (Py.truthy _)); [intros [= <- <-]; right; now left|].
  destruct (apply_guardrails _ _ _ _ _ _ h1) as [redacted_text h2].
  destruct (analyze_content _ _ _ _ _ h2) as [analysis h3].
  destruct (_ && _); [discriminate|].
  destruct (apply_guardrails _ _ _ _ _ _ h3) as [safe_query h4].
  match goal with |- context [generate_content ?p] =>
    set (prompt := p); destruct (generate_content prompt) as [t|e] eqn:Hgen
  end.
  - destruct (analyze_content _ _ _ _ _ h4) as [final_analysis h5].
    destruct (_ && _); discriminate.
  - intros [= <- <-]. right. right. split; [reflexivity|]. now exists prompt, e.
Qed.

(** X16. An index position outside the store is not caught: the handler
    ends with an unhandled exception. *)
Theorem query_resume_bad_index texts data_query h :
  Py.strip (default "" data_query) <> EmptyString ->
  (forall q, exists i row rows,
      index_search q = (i :: row) :: rows /\ i <> -1 /\ Py.index texts i = None) ->
  fst (query_resume cos_sim presidio model topic_embeddings re_sub (Some texts)
         index_search generate_content data_query h)
  = Unhandled.
Proof.
  intros Hq Hbad. unfold query_resume, search_resumes.
  apply truthy_true in Hq. rewrite Hq. cbn [negb].
  destruct (apply_guardrails _ _ _ _ _ _ h) as [safe_query h1].
  destruct (Hbad safe_query) as (i & row & rows & -> & Hi & ->).
  destruct (Z.eqb_spec i (-1)); [congruence|]. reflexivity.
Qed.

End ApiMore.

(* ================================================================== *)
(** ** The further properties on sample inputs *)

Lemma segment_text_chunks_bounded_witness :
  1 <= 5
  /\ exists chunks,
       PdfUtils.segment_text "hello world, a long line" 5 = Some chunks
       /\ Forall (fun c => Py.len c <= 5) chunks.
Proof.
  split; [lia|]. apply (segment_text_chunks_bounded 5 "hello world, a long line"). lia.
Defined.

Lemma segment_text_keeps_lines_witness :
  Forall (fun p => Py.len p <= 6) (PdfUtils.stripped_lines "  ab   ")
  /\ exists chunks,
       PdfUtils.segment_text "  ab   " 6 = Some chunks
       /\ PyStr.join (String "010" EmptyString) chunks
          = PyStr.join (String "010" EmptyString) (PdfUtils.stripped_lines "  ab   ").
Proof.
  assert (Forall (fun p => Py.len p <= 6) (PdfUtils.stripped_lines "  ab   ")) as H
    by (repeat constructor; vm_compute; discriminate).
  split; [exact H|]. exact (segment_text_keeps_lines 6 "  ab   " H).
Defined.

Lemma segment_text_chunks_stripped_witness :
  PdfUtils.segment_text "a    b" 2 = Some ["a"; ""; "b"]
  /\ Forall (fun c => Py.strip c = c) ["a"; ""; "b"].
Proof.
  split; [reflexivity|].
  exact (segment_text_chunks_stripped 2 "a    b" ["a"; ""; "b"] eq_refl).
Defined.

Lemma segment_text_blank_witness :
  all_space "   " = true /\ PdfUtils.segment_text "   " 0 = Some [].
Proof. split; [reflexivity|]. exact (segment_text_blank 0 "   " eq_refl). Defined.

Lemma segment_text_zero_limit_raises_witness :
  PdfUtils.stripped_lines "resume" <> []
  /\ PdfUtils.segment_text "resume" 0 = None.
Proof.
  assert (PdfUtils.stripped_lines "resume" <> []) as H by (vm_compute; discriminate).
  split; [exact H|]. exact (segment_text_zero_limit_raises "resume" H).
Defined.

Lemma segment_text_negative_limit_empty_witness :
  -3 < 0 /\ PdfUtils.segment_text "resume" (-3) = Some [].
Proof.
  split; [lia|]. apply (segment_text_negative_limit_empty "resume" (-3)). lia.
Defined.

Lemma sanitize_text_same_words_witness :
  PyStr.split_ws "a  b" = PyStr.split_ws " a b "
  /\ PdfUtils.sanitize_text Sample.cos_sim Sample.presidio Sample.keyword_model
       (Sample.embeddings_of Sample.keyword_model) "a  b" []
     = PdfUtils.sanitize_text Sample.cos_sim Sample.presidio Sample.keyword_model
         (Sample.embeddings_of Sample.keyword_model) " a b " [].
Proof.
  split; [reflexivity|].
  exact (sanitize_text_same_words Sample.cos_sim Sample.presidio Sample.keyword_model
           (Sample.embeddings_of Sample.keyword_model) "a  b" " a b " [] eq_refl).
Defined.

Lemma detected_topic_is_first_best_witness :
  detected (detect_semantic_pii Sample.cos_sim Sample.keyword_detector "CGPA") = true
  /\ exists e idx topic,
       semantic_model Sample.keyword_detector "CGPA" = Some e
       /\ matched_topic
            (detect_semantic_pii Sample.cos_sim Sample.keyword_detector "CGPA")
          = Some topic
       /\ nth_error (sensitive_topics (config Sample.keyword_detector)) idx
          = Some topic
       /\ nth_error (map (Sample.cos_sim e)
                         (sensitive_embeddings Sample.keyword_detector)) idx
          = Some (similarity
                    (detect_semantic_pii Sample.cos_sim Sample.keyword_detector "CGPA"))
       /\ Forall (fun s =>
                    (s <= similarity
                            (detect_semantic_pii Sample.cos_sim
                               Sample.keyword_detector "CGPA"))%Q)
                 (map (Sample.cos_sim e)
                      (sensitive_embeddings Sample.keyword_detector))
       /\ (forall j s, (j < idx)%nat ->
             nth_error (map (Sample.cos_sim e)
                            (sensitive_embeddings Sample.keyword_detector)) j
               = Some s ->
             (s < similarity
                    (detect_semantic_pii Sample.cos_sim Sample.keyword_detector
                       "CGPA"))%Q).
Proof.
  split; [reflexivity|].
  exact (detected_topic_is_first_best Sample.cos_sim Sample.keyword_detector "CGPA"
           eq_refl).
Defined.

Lemma risk_order_independent_witness :
  Permutation [Sample.email_detection; SampleIndex.url_detection]
              [SampleIndex.url_detection; Sample.email_detection]
  /\ (_calculate_risk Sample.keyword_detector
        [Sample.email_detection; SampleIndex.url_detection] Sample.cgpa_match
      == _calculate_risk Sample.keyword_detector
           [SampleIndex.url_detection; Sample.email_detection] Sample.cgpa_match)%Q.
Proof.
  split; [apply perm_swap|].
  apply (risk_order_independent Sample.keyword_detector). apply perm_swap.
Defined.

Lemma risk_saturates_witness :
  semantic_wf Sample.cgpa_match
  /\ (2 <= List.length [Sample.email_detection; SampleIndex.url_detection])%nat
  /\ (1 <= high_risk_count Sample.keyword_detector
             [Sample.email_detection; SampleIndex.url_detection])%nat
  /\ (_calculate_risk Sample.keyword_detector
        [Sample.email_detection; SampleIndex.url_detection] Sample.cgpa_match
      == 1)%Q.
Proof.
  assert (semantic_wf Sample.cgpa_match) as Hwf
    by (intros _; vm_compute; discriminate).
  assert (1 <= high_risk_count Sample.keyword_detector
                 [Sample.email_detection; SampleIndex.url_detection])%nat as Hk
    by (vm_compute; lia).
  split; [exact Hwf|]. split; [simpl; lia|]. split; [exact Hk|].
  apply (risk_saturates Sample.keyword_detector _ _ Hwf); [simpl; lia|exact Hk].
Defined.

Lemma redact_pii_keeps_text_before_spans_witness :
  let a := fst (analyze_text Sample.cos_sim Sample.keyword_detector Sample.email_text []) in
  let h := snd (analyze_text Sample.cos_sim Sample.keyword_detector Sample.email_text []) in
  detected (semantic_detection a) = false
  /\ 0 <= 5
  /\ Forall (fun d => 5 <= start d <= Py.len Sample.email_text)
            (deref h (presidio_detections a))
  /\ Py.slice_to (fst (redact_pii Sample.keyword_detector Sample.email_text a h)) 5
     = Py.slice_to Sample.email_text 5.
Proof.
  intros a h.
  assert (Forall (fun d => 5 <= start d <= Py.len Sample.email_text)
                 (deref h (presidio_detections a))) as Hin
    by (repeat constructor; vm_compute; discriminate).
  split; [reflexivity|]. split; [lia|]. split; [exact Hin|].
  apply (redact_pii_keeps_text_before_spans Sample.keyword_detector
           Sample.email_text a h 5 eq_refl); [lia|exact Hin].
Defined.

Lemma redact_pii_puts_token_witness :
  let a := fst (analyze_text Sample.cos_sim Sample.keyword_detector Sample.email_text []) in
  let h := snd (analyze_text Sample.cos_sim Sample.keyword_detector Sample.email_text []) in
  detected (semantic_detection a) = false
  /\ deref h (presidio_detections a) <> []
  /\ exists d,
       In d (deref h (presidio_detections a))
       /\ (forall x, In x (deref h (presidio_detections a)) -> start d <= start x)
       /\ Py.contains
            (token_for (redaction_patterns (config Sample.keyword_detector))
               (entity_type d))
            (fst (redact_pii Sample.keyword_detector Sample.email_text a h)) = true.
Proof.
  intros a h.
  assert (deref h (presidio_detections a) <> []) as Hne
    by (vm_compute; discriminate).
  split; [reflexivity|]. split; [exact Hne|].
  exact (redact_pii_puts_token Sample.keyword_detector Sample.email_text a h
           eq_refl Hne).
Defined.

Lemma percent_signs_removed_witness :
  detected SampleIndex.percentage_match = true
  /\ matched_topic SampleIndex.percentage_match = Some "percentage"
  /\ Py.contains "%" (redact_topic SampleIndex.percentage_match "90% of 100%") = false.
Proof.
  split; [reflexivity|]. split; [reflexivity|].
  exact (percent_signs_removed SampleIndex.percentage_match "90% of 100%"
           eq_refl eq_refl).
Defined.

Lemma apply_guardrails_fails_open_witness :
  Sample.failing_model "mail a@b.com" = None
  /\ fst (apply_guardrails Sample.cos_sim None Sample.failing_model []
            "mail a@b.com" DEFAULT_DETECTION_MODE [])
     = "mail a@b.com".
Proof.
  split; [reflexivity|].
  apply (apply_guardrails_fails_open Sample.cos_sim None Sample.failing_model []
           "mail a@b.com" DEFAULT_DETECTION_MODE [] I eq_refl).
Defined.

Lemma unchanged_without_literals_witness :
  detect_pii_with_presidio Sample.keyword_detector "my cgpa is high" = []
  /\ detected (detect_semantic_pii Sample.cos_sim Sample.keyword_detector
                 "my cgpa is high") = true
  /\ Sample.sanitize "my cgpa is high" = "my cgpa is high".
Proof.
  split; [reflexivity|]. split; [reflexivity|].
  exact (unchanged_without_literals Sample.cos_sim Sample.presidio
           Sample.keyword_model (Sample.embeddings_of Sample.keyword_model)
           "my cgpa is high" DEFAULT_DETECTION_MODE []
           eq_refl eq_refl eq_refl eq_refl eq_refl).
Defined.

Lemma build_faiss_index_stores_sanitized_witness :
  SampleIndex.build SampleIndex.folder
    = (Some true, snd (fst (SampleIndex.build SampleIndex.folder)),
       snd (SampleIndex.build SampleIndex.folder))
  /\ load_store (snd (fst (SampleIndex.build SampleIndex.folder)))
     = Some (Some ["mail [EMAIL_REDACTED] or [EMAIL_REDACTED]"; "[CGPA_REDACTED]"]).
Proof.
  assert (SampleIndex.build SampleIndex.folder
          = (Some true, snd (fst (SampleIndex.build SampleIndex.folder)),
             snd (SampleIndex.build SampleIndex.folder))) as H
    by (vm_compute; reflexivity).
  split; [exact H|].
  destruct (build_faiss_index_stores_sanitized Sample.cos_sim Sample.presidio
              Sample.keyword_model (Sample.embeddings_of Sample.keyword_model)
              SampleIndex.encode_lengths SampleIndex.pdf_pages
              SampleIndex.completes SampleIndex.completes
              SampleIndex.folder [] _ _ H)
    as (names & texts & embeddings & _ & _ & Hload & _).
  vm_compute. reflexivity.
Defined.

Lemma retrieved_text_is_sanitized_pdf_witness :
  SampleIndex.build SampleIndex.folder
    = (Some true, snd (fst (SampleIndex.build SampleIndex.folder)),
       snd (SampleIndex.build SampleIndex.folder))
  /\ SampleIndex.search (snd (fst (SampleIndex.build SampleIndex.folder)))
       Sample.first_hit "who"
     = (Some (Some "mail [EMAIL_REDACTED] or [EMAIL_REDACTED]"), [[]])
  /\ exists names name pages,
       resume_folder SampleIndex.folder = Some names
       /\ In name names /\ is_pdf name = true
       /\ SampleIndex.pdf_pages name = Some pages
       /\ "mail [EMAIL_REDACTED] or [EMAIL_REDACTED]"
          = sanitized Sample.cos_sim Sample.presidio Sample.keyword_model
              (Sample.embeddings_of Sample.keyword_model)
              (Py.strip (PyStr.join (String "010" EmptyString) pages)).
Proof.
  assert (SampleIndex.build SampleIndex.folder
          = (Some true, snd (fst (SampleIndex.build SampleIndex.folder)),
             snd (SampleIndex.build SampleIndex.folder))) as Hb
    by (vm_compute; reflexivity).
  assert (SampleIndex.search (snd (fst (SampleIndex.build SampleIndex.folder)))
            Sample.first_hit "who"
          = (Some (Some "mail [EMAIL_REDACTED] or [EMAIL_REDACTED]"), [[]])) as Hs
    by (vm_compute; reflexivity).
  split; [exact Hb|]. split; [exact Hs|].
  exact (retrieved_text_is_sanitized_pdf Sample.cos_sim Sample.presidio
           Sample.keyword_model (Sample.embeddings_of Sample.keyword_model)
           SampleIndex.encode_lengths SampleIndex.pdf_pages
           SampleIndex.completes SampleIndex.completes
           SampleIndex.folder [] _ _ Sample.first_hit "who" [] _ _ Hb Hs).
Defined.


Lemma build_faiss_index_without_pdf_witness :
  exists fs',
    SampleIndex.build SampleIndex.no_folder = (Some false, fs', [])
    /\ resume_folder fs' = Some [].
Proof.
  exact (build_faiss_index_without_pdf Sample.cos_sim Sample.presidio
           Sample.keyword_model (Sample.embeddings_of Sample.keyword_model)
           SampleIndex.encode_lengths SampleIndex.pdf_pages
           SampleIndex.completes SampleIndex.completes
           SampleIndex.no_folder [] I).
Defined.

Lemma search_resumes_returns_stored_witness :
  search_resumes Sample.cos_sim Sample.presidio Sample.keyword_model
    (Sample.embeddings_of Sample.keyword_model) (Some Sample.resume_texts)
    Sample.first_hit "who is Ann" []
    = (Some (Some "Resume of Ann, engineer"), [[]])
  /\ exists texts,
       Some Sample.resume_texts = Some texts /\ In "Resume of Ann, engineer" texts.
Proof.
  split; [reflexivity|].
  exact (search_resumes_returns_stored Sample.cos_sim Sample.presidio
           Sample.keyword_model (Sample.embeddings_of Sample.keyword_model)
           Sample.first_hit (Some Sample.resume_texts) "who is Ann" []
           "Resume of Ann, engineer" [[]] eq_refl).
Defined.

Lemma query_resume_blank_query_witness :
  all_space (default "" (Some "   ")) = true
  /\ Sample.query (Some "   ") = Json (ErrorBody "Query is required") 400.
Proof.
  split; [reflexivity|].
  unfold Sample.query.
  now rewrite (query_resume_blank_query Sample.cos_sim Sample.presidio
                 Sample.keyword_model (Sample.embeddings_of Sample.keyword_model)
                 Sample.re_sub_no_match Sample.first_hit
                 (Sample.answer_with Sample.email_text)
                 (Some Sample.resume_texts) (Some "   ") [] eq_refl).
Defined.

Lemma query_resume_without_store_witness :
  Py.strip (default "" (Some "who is Ann")) <> EmptyString
  /\ fst (query_resume Sample.cos_sim Sample.presidio Sample.keyword_model
            (Sample.embeddings_of Sample.keyword_model) Sample.re_sub_no_match
            None Sample.first_hit (Sample.answer_with "") (Some "who is Ann") [])
     = Json (ErrorBody "No relevant resume data found for your query.") 404.
Proof.
  assert (Py.strip (default "" (Some "who is Ann")) <> EmptyString) as H
    by (vm_compute; discriminate).
  split; [exact H|].
  now rewrite (query_resume_without_store Sample.cos_sim Sample.presidio
                 Sample.keyword_model (Sample.embeddings_of Sample.keyword_model)
                 Sample.re_sub_no_match Sample.first_hit (Sample.answer_with "")
                 (Some "who is Ann") [] H).
Defined.

Lemma query_resume_error_responses_witness :
  Sample.query None = Json (ErrorBody "Query is required") 400
  /\ ((400 = 400 /\ "Query is required" = "Query is required")
      \/ (400 = 404
          /\ "Query is required" = "No relevant resume data found for your query.")
      \/ (400 = 500
          /\ exists prompt e,
               Sample.answer_with Sample.email_text prompt = GenerationError e
               /\ "Query is required" = "Gemini API error: " ++ e)).
Proof.
  split; [reflexivity|].
  exact (query_resume_error_responses Sample.cos_sim Sample.presidio
           Sample.keyword_model (Sample.embeddings_of Sample.keyword_model)
           Sample.re_sub_no_match Sample.first_hit
           (Sample.answer_with Sample.email_text)
           (Some Sample.resume_texts) None [] "Query is required" 400 eq_refl).
Defined.

Lemma query_resume_bad_index_witness :
  Py.strip (default "" (Some "who is Ann")) <> EmptyString
  /\ fst (query_resume Sample.cos_sim Sample.presidio Sample.keyword_model
            (Sample.embeddings_of Sample.keyword_model) Sample.re_sub_no_match
            (Some Sample.resume_texts) SampleIndex.far_hit (Sample.answer_with "")
            (Some "who is Ann") [])
     = Unhandled.
Proof.
  assert (Py.strip (default "" (Some "who is Ann")) <> EmptyString) as H
    by (vm_compute; discriminate).
  split; [exact H|].
  apply (query_resume_bad_index Sample.cos_sim Sample.presidio
           Sample.keyword_model (Sample.embeddings_of Sample.keyword_model)
           Sample.re_sub_no_match SampleIndex.far_hit (Sample.answer_with "")
           Sample.resume_texts (Some "who is Ann") [] H).
  intros q. exists 7, [], []. split; [reflexivity|]. split; [lia|reflexivity].
Defined.

(* ================================================================== *)
(** ** The risk score of a report and of an analysis *)

Section RiskRange.

Context {Embedding : Type}.
Variable cos_sim : Embedding -> Embedding -> Q.
Variable self : AdvancedPIIDetector Embedding.
Variable presidio : option AnalyzerEngine.
Variable model : string -> option Embedding.
Variable topic_embeddings : list Embedding.

(** C4. On every base report (a list of findings and a semantic match,
    whatever they are) one more finding of a high-risk type at the end
    of the list does not lower the score of [_calculate_risk], and the
    score is at most 1. For every text and every analyzer, model and
    topic embeddings, the score that [analyze_text] of the module's
    detector computes lies between 0 and 1. On a report taken by
    itself the score is not negative as soon as the similarity of a
    detection is not. *)
Theorem risk_monotone_and_bounded detections semantic d text h :
  (is_high_risk self d = true ->
   (_calculate_risk self detections semantic
    <= _calculate_risk self (detections ++ [d])%list semantic)%Q)
  /\ (_calculate_risk self detections semantic <= 1)%Q
  /\ (0 <= risk_score
             (fst (analyze_text cos_sim (detector presidio model topic_embeddings)
                     text h)) <= 1)%Q
  /\ (semantic_wf semantic ->
      (0 <= _calculate_risk self detections semantic)%Q).
Proof.
  split; [|split; [|split]]; [| | |intros Hwf; now apply calculate_risk_bounds].
  - intros Hd. rewrite !calculate_risk_loop. apply Q.min_le_compat_r.
    rewrite high_risk_count_app, List.length_app.
    assert (high_risk_count self [d] = 1%nat) as ->
      by (unfold high_risk_count; cbn [List.filter]; now rewrite Hd).
    cbn [List.length].
    rewrite !Nat2Z.inj_add, !inject_Z_plus.
    set (n := inject_Z (Z.of_nat (List.length detections))).
    set (k := inject_Z (Z.of_nat (high_risk_count self detections))).
    destruct (detected semantic);
      change (inject_Z (Z.of_nat 1)) with 1%Q; clearbody n k; lra.
  - rewrite calculate_risk_loop. eapply Qle_trans; [apply Q.le_min_r|lra].
  - rewrite analyze_text_eq. cbn [fst risk_score].
    apply calculate_risk_bounds, detect_semantic_pii_wf.
    cbn. lra.
Qed.

End RiskRange.

(** C4 on a report with a topic match, to which an e-mail address is
    added, and on the analysis of a text with two addresses. *)
Lemma risk_monotone_and_bounded_witness :
  is_high_risk Sample.keyword_detector Sample.email_detection = true
  /\ (_calculate_risk Sample.keyword_detector [] Sample.cgpa_match
      <= _calculate_risk Sample.keyword_detector [Sample.email_detection]
           Sample.cgpa_match)%Q
  /\ (0 <= risk_score
             (fst (analyze_text Sample.cos_sim Sample.keyword_detector
                     Sample.email_text [])) <= 1)%Q.
Proof.
  pose proof (risk_monotone_and_bounded Sample.cos_sim Sample.keyword_detector
                Sample.presidio Sample.keyword_model
                (Sample.embeddings_of Sample.keyword_model)
                [] Sample.cgpa_match Sample.email_detection Sample.email_text [])
    as (Hmono & _ & Hrange & _).
  split; [reflexivity|]. split; [exact (Hmono eq_refl)|exact Hrange].
Defined.

(* ================================================================== *)
(** ** The responses of the [/query] handler *)

Section QueryResponses.

Context {Embedding : Type}.
Variable cos_sim : Embedding -> Embedding -> Q.
Variable presidio : option AnalyzerEngine.
Variable model : string -> option Embedding.
Variable topic_embeddings : list Embedding.
Variable re_sub : string -> string -> string -> string.
Variable text_store : option (list string).
Variable index_search : string -> list (list Z).
Variable generate_content : string -> Generation.

Let clean := sanitized cos_sim presidio model topic_embeddings.


End QueryResponses.

(* ================================================================== *)
(** ** Sanitizing twice *)

(** What [replace] does to the length, for a token no shorter than the
    word it stands for. *)
Lemma replace_from_length old new :
  (1 <= String.length old <= String.length new)%nat ->
  forall s k,
    (String.length s <= String.length (Py.replace_from old new k s) + k)%nat.
Proof.
  intros Hlen. induction s as [|c s IH]; intros k; [simpl; lia|].
  destruct k as [|k]; cbn [Py.replace_from].
  - destruct (String.prefix old (String c s)).
    + rewrite length_append. specialize (IH (String.length old - 1)%nat).
      cbn [String.length]. lia.
    + specialize (IH 0%nat). cbn [String.length]. lia.
  - specialize (IH k). cbn [String.length]. lia.
Qed.

Lemma replace_from_longer a old new :
  (String.length (String a old) < String.length new)%nat ->
  forall s,
    Py.contains (String a old) s = true ->
    (String.length s < String.length (Py.replace_from (String a old) new 0 s))%nat.
Proof.
  intros Hlen. induction s as [|c s IH]; intros Hin; [discriminate|].
  cbn [Py.contains] in Hin. cbn [Py.replace_from].
  destruct (String.prefix (String a old) (String c s)) eqn:Hp.
  - rewrite length_append.
    pose proof (replace_from_length (String a old) new
                  ltac:(cbn [String.length] in *; lia) s
                  (String.length (String a old) - 1)%nat).
    cbn [String.length] in *. lia.
  - cbn [orb] in Hin. specialize (IH Hin). cbn [String.length]. lia.
Qed.

(** Replacing a word that occurs by a longer token changes the text. *)
Lemma replace_changes s old new :
  old <> EmptyString ->
  (String.length old < String.length new)%nat ->
  Py.contains old s = true ->
  Py.replace s old new <> s.
Proof.
  intros Hne Hlen Hin E. destruct old as [|a old]; [congruence|].
  pose proof (replace_from_longer a old new Hlen s Hin) as H.
  unfold Py.replace in E. rewrite E in H. lia.
Qed.

Lemma prefix_nil s : String.prefix EmptyString s = true.
Proof. now destruct s. Qed.

(** A word without the first character of the token, found at the
    head of the replaced text, was at the head of the text. *)
Lemma prefix_of_replaced old b new : forall p s,
  Py.contains (String b EmptyString) p = false ->
  String.prefix p (Py.replace_from old (String b new) 0 s) = true ->
  String.prefix p s = true.
Proof.
  intros p s. revert p. induction s as [|c s IH]; intros p Hb; [trivial|].
  cbn [Py.replace_from].
  destruct p as [|x p]; [intros _; apply prefix_nil|].
  rewrite contains_one_cons in Hb. apply orb_false_iff in Hb as [Hx Hb].
  destruct (String.prefix old (String c s)).
  - rewrite app_cons. cbn [String.prefix].
    destruct (Ascii.ascii_dec x b) as [->|]; [|discriminate].
    now destruct (Ascii.ascii_dec b b).
  - cbn [String.prefix]. destruct (Ascii.ascii_dec x c); [|discriminate].
    now apply IH.
Qed.

(** A word does not start inside a token that has not its first
    character. *)
Lemma contains_after_token a old new rest :
  Py.contains (String a EmptyString) new = false ->
  Py.contains (String a old) (new ++ rest) = Py.contains (String a old) rest.
Proof.
  induction new as [|x new IH]; intros Ha; [now rewrite app_nil_l|].
  rewrite contains_one_cons in Ha. apply orb_false_iff in Ha as [Hx Ha].
  rewrite app_cons. cbn [Py.contains String.prefix].
  destruct (Ascii.ascii_dec a x); [discriminate|]. now apply IH.
Qed.

Lemma replace_from_gone a old b new :
  Py.contains (String a EmptyString) (String b new) = false ->
  Py.contains (String b EmptyString) (String a old) = false ->
  forall s k,
    Py.contains (String a old)
      (Py.replace_from (String a old) (String b new) k s) = false.
Proof.
  intros Ha Hb. induction s as [|c s IH]; intros k; [reflexivity|].
  destruct k as [|k]; cbn [Py.replace_from]; [|apply IH].
  destruct (String.prefix (String a old) (String c s)) eqn:Hp.
  - rewrite contains_after_token by exact Ha. apply IH.
  - cbn [Py.contains]. rewrite IH, orb_false_r.
    destruct (String.prefix (String a old)
                (String c (Py.replace_from (String a old) (String b new) 0 s)))
      eqn:E; [|reflexivity].
    rewrite <- Hp. symmetry.
    apply (prefix_of_replaced (String a old) b new); [exact Hb|].
    cbn [Py.replace_from]. now rewrite Hp.
Qed.

(** After a word is replaced by a token, it occurs no more, when the
    token does not have the first character of the word and the word
    does not have the first character of the token. *)
Lemma replace_gone s a old b new :
  Py.contains (String a EmptyString) (String b new) = false ->
  Py.contains (String b EmptyString) (String a old) = false ->
  Py.contains (String a old) (Py.replace s (String a old) (String b new)) = false.
Proof. intros Ha Hb. now apply replace_from_gone. Qed.

Lemma prefix_app_l n a b :
  String.prefix n a = true -> String.prefix n (a ++ b) = true.
Proof.
  revert a. induction n as [|x n IH]; intros a H; [apply prefix_nil|].
  destruct a as [|y a]; [discriminate|]. rewrite app_cons.
  cbn [String.prefix] in *. destruct (Ascii.ascii_dec x y); [|discriminate].
  now apply IH.
Qed.

Lemma contains_app_l n a b :
  Py.contains n a = true -> Py.contains n (a ++ b) = true.
Proof.
  induction a as [|c a IH]; intros H.
  - cbn [Py.contains] in H. rewrite orb_false_r in H.
    apply contains_prefix. now apply (prefix_app_l n EmptyString b).
  - cbn [Py.contains] in H. apply orb_true_iff in H as [H|H].
    + apply contains_prefix. now apply prefix_app_l.
    + rewrite app_cons. cbn [Py.contains]. rewrite (IH H). apply orb_true_r.
Qed.

(** A word that occurs in its own token occurs in the replaced text
    when it occurred in the text. *)
Lemma replace_keeps_word s a old new :
  Py.contains (String a old) new = true ->
  Py.contains (String a old) s = true ->
  Py.contains (String a old) (Py.replace s (String a old) new) = true.
Proof.
  intros Hnew. unfold Py.replace. induction s as [|c s IH]; intros Hin;
    [discriminate|].
  cbn [Py.contains] in Hin. cbn [Py.replace_from].
  destruct (String.prefix (String a old) (String c s)).
  - now apply contains_app_l.
  - cbn [orb] in Hin. cbn [Py.contains]. rewrite (IH Hin). apply orb_true_r.
Qed.

Lemma redact_topic_literal semantic redacted :
  redact_topic semantic redacted
  = match topic_literal semantic with
    | Some literal => Py.replace redacted literal (topic_token literal)
    | None => redacted
    end.
Proof.
  unfold redact_topic, topic_literal. destruct (detected semantic); [|reflexivity].
  cbv zeta.
  repeat match goal with |- context [if ?b then _ else _] => destruct b end;
    reflexivity.
Qed.

Lemma topic_literal_cases semantic literal :
  topic_literal semantic = Some literal ->
  detected semantic = true
  /\ (literal = "CGPA" \/ literal = "marks" \/ literal = "GPA" \/ literal = "%").
Proof.
  unfold topic_literal. destruct (detected semantic); [|discriminate].
  cbv zeta.
  repeat match goal with |- context [if ?b then _ else _] => destruct b end;
    intros [= <-]; auto 6.
Qed.

Section SanitizeTwice.

Context {Embedding : Type}.
Variable cos_sim : Embedding -> Embedding -> Q.
Variable presidio : option AnalyzerEngine.
Variable model : string -> option Embedding.
Variable topic_embeddings : list Embedding.

Let the_detector := detector presidio model topic_embeddings.
Let sanitize_in (text mode : string) (h : list (list Detection)) :=
  apply_guardrails cos_sim presidio model topic_embeddings text mode h.

(** The run of [apply_guardrails] on a text in which no entity is
    found: the keyword pass alone. *)
Lemma apply_guardrails_no_entity text mode h :
  detect_pii_with_presidio the_detector text = [] ->
  fst (sanitize_in text mode h)
  = match topic_literal (detect_semantic_pii cos_sim the_detector text) with
    | Some literal => Py.replace text literal (topic_token literal)
    | None => text
    end.
Proof.
  intros Hnone. unfold sanitize_in. rewrite apply_guardrails_value. cbv zeta.
  fold the_detector. rewrite Hnone. cbn [sort_desc foldr fold_left].
  rewrite redact_topic_literal. unfold topic_literal.
  now destruct (detected _).
Qed.

(** The run of [apply_guardrails] on a text whose semantic match
    selects a literal: the keyword pass after the pass over the
    findings. *)
Lemma apply_guardrails_literal text mode h literal :
  topic_literal (detect_semantic_pii cos_sim the_detector text) = Some literal ->
  fst (sanitize_in text mode h)
  = Py.replace
      (fold_left (redact_span the_detector)
                 (sort_desc (detect_pii_with_presidio the_detector text)) text)
      literal (topic_token literal).
Proof.
  intros Hlit. unfold sanitize_in. rewrite apply_guardrails_value. cbv zeta.
  fold the_detector. rewrite redact_topic_literal, Hlit.
  apply topic_literal_cases in Hlit as [-> _].
  now destruct (detect_pii_with_presidio the_detector text).
Qed.

(** C2, as the code has it. Let [once] be a sanitized text in which
    the analyzer finds no entity. Sanitizing it again gives it back
    exactly when the literal that the semantic match of [once] selects
    (CGPA, marks, GPA or the percent sign; none when the match is no
    detection or is of another topic) does not occur in [once]. So the
    second run changes nothing when both runs select marks, or both
    the percent sign: the first run has left no such literal. It
    rewrites the text when both runs select CGPA, or both GPA, and the
    first run has replaced an occurrence: the token that it put
    contains the literal. *)
Theorem apply_guardrails_twice text mode h :
  let once := sanitize_in text mode h in
  let twice := sanitize_in (fst once) mode (snd once) in
  let first := topic_literal (detect_semantic_pii cos_sim the_detector text) in
  let second :=
    topic_literal (detect_semantic_pii cos_sim the_detector (fst once)) in
  detect_pii_with_presidio the_detector (fst once) = [] ->
  (fst twice = fst once
   <-> forall literal, second = Some literal ->
                       Py.contains literal (fst once) = false)
  /\ (forall literal,
        first = Some literal -> second = Some literal ->
        literal = "marks" \/ literal = "%" ->
        fst twice = fst once)
  /\ (forall literal,
        first = Some literal -> second = Some literal ->
        literal = "CGPA" \/ literal = "GPA" ->
        Py.contains literal
          (fold_left (redact_span the_detector)
                     (sort_desc (detect_pii_with_presidio the_detector text)) text)
          = true ->
        fst twice <> fst once).
Proof.
  intros once twice first second Hnone.
  assert (fst twice = fst once
          <-> forall literal, second = Some literal ->
                              Py.contains literal (fst once) = false) as Hiff.
  { subst twice. rewrite (apply_guardrails_no_entity _ _ _ Hnone). fold second.
    destruct second as [literal|] eqn:Hsecond; [|split; [discriminate|reflexivity]].
    split.
    - intros Hfix l [= <-].
      destruct (Py.contains literal (fst once)) eqn:Hin; [|reflexivity].
      exfalso. revert Hfix. apply replace_changes; [| |exact Hin];
        apply topic_literal_cases in Hsecond as [_ [-> | [-> | [-> | ->]]]];
        (discriminate || (vm_compute; lia)).
    - intros Habsent. apply replace_absent; [|now apply Habsent].
      apply topic_literal_cases in Hsecond as [_ [-> | [-> | [-> | ->]]]]; discriminate. }
  split; [exact Hiff|split].
  - intros literal Hfirst Hsecond Hlit. apply Hiff. intros l Hl.
    assert (l = literal) as -> by congruence.
    subst once. rewrite (apply_guardrails_literal _ _ _ _ Hfirst).
    destruct Hlit as [-> | ->]; now apply replace_gone.
  - intros literal Hfirst Hsecond Hlit Hin Hfix.
    assert (Py.contains literal (fst once) = false) as Hout
      by now apply Hiff.
    subst once. rewrite (apply_guardrails_literal _ _ _ _ Hfirst) in Hout.
    destruct Hlit as [-> | ->];
      rewrite replace_keeps_word in Hout; (discriminate || reflexivity || exact Hin).
Qed.

End SanitizeTwice.

(* ================================================================== *)
(** ** The handler and the double run on sample inputs *)


(** C2, as amended, on two texts. In the first both runs select
    "marks": the second run finds the topic in the token and no
    literal to replace. The second is about a password: it is flagged
    again in the second run and comes back as it is. *)
Lemma apply_guardrails_twice_witness :
  let run text h :=
    apply_guardrails Sample.cos_sim Sample.presidio Sample.keyword_model
      (Sample.embeddings_of Sample.keyword_model) text DEFAULT_DETECTION_MODE h in
  let once text := run text [] in
  let twice text := run (fst (once text)) (snd (once text)) in
  (detect_pii_with_presidio Sample.keyword_detector
     (fst (once "my marks are 90% in gpa")) = []
   /\ fst (once "my marks are 90% in gpa") = "my [MARKS_REDACTED] are 90% in gpa"
   /\ fst (twice "my marks are 90% in gpa") = fst (once "my marks are 90% in gpa"))
  /\ (detect_pii_with_presidio Sample.keyword_detector (fst (once "my password")) = []
      /\ detected (detect_semantic_pii Sample.cos_sim Sample.keyword_detector
                     (fst (once "my password"))) = true
      /\ fst (twice "my password") = fst (once "my password")).
Proof.
  intros run once twice. split.
  - assert (detect_pii_with_presidio Sample.keyword_detector
              (fst (once "my marks are 90% in gpa")) = []) as Hnone
      by (vm_compute; reflexivity).
    split; [exact Hnone|]. split; [vm_compute; reflexivity|].
    destruct (apply_guardrails_twice Sample.cos_sim Sample.presidio
                Sample.keyword_model (Sample.embeddings_of Sample.keyword_model)
                "my marks are 90% in gpa" DEFAULT_DETECTION_MODE [] Hnone)
      as (_ & Hsame & _).
    apply (Hsame "marks"); [vm_compute; reflexivity|vm_compute; reflexivity|].
    now left.
  - assert (detect_pii_with_presidio Sample.keyword_detector
              (fst (once "my password")) = []) as Hnone
      by (vm_compute; reflexivity).
    split; [exact Hnone|]. split; [vm_compute; reflexivity|].
    destruct (apply_guardrails_twice Sample.cos_sim Sample.presidio
                Sample.keyword_model (Sample.embeddings_of Sample.keyword_model)
                "my password" DEFAULT_DETECTION_MODE [] Hnone)
      as (Hiff & _ & _).
    apply Hiff. intros literal Hsecond. vm_compute in Hsecond. discriminate.
Defined.

(** A query made of a no-break space and a NEL is blank for [strip]:
    the handler answers 400 and searches nothing. *)
Example query_no_break_space :
  Sample.query (Some (String "160" (String "133" EmptyString)))
  = Json (ErrorBody "Query is required") 400.
Proof. reflexivity. Qed.
